(** * Client-side notification synchronizer

    A shallow embedding of [NotificationProvider]
    (frontend/src/context/NotificationContext.js): the React state it owns,
    the WebSocket handlers installed by [connectWebSocket], and the three
    asynchronous actions it exports ([fetchNotifications], [markAsRead],
    [markAllAsRead]).

    The JavaScript is written against a handful of effects: React state
    setters, [localStorage], [fetch], the WebSocket API, [setTimeout] and the
    console.  They are the constructors of [Event]; the source functions are
    programs over these events in a small free monad with exceptions, and
    [run] gives the events their meaning on a [Machine].

    Conventions.  JavaScript numbers that count or identify are integers
    ([Z]); the read flag is a boolean.  A function component's closures see
    the state of the render that built them: where the source reads
    [socket], [isConnected] or [currentUser] from its closure, the function
    here takes that value as an argument.  An [await] is one step: the
    continuation of a [fetch] runs right after the request, on the answer
    the network gives; the state setters after it are functional updates or
    absolute writes, applied to the state they find.  [token] is what
    [localStorage.getItem('token')] gives when that is truthy; [None] stands
    for an absent or empty entry. *)

From Stdlib Require Import ZArith List String Bool Lia DecimalString.
Import ListNotations.
Local Open Scope string_scope.
Local Open Scope list_scope.
Local Open Scope Z_scope.

(** ** Data *)

(** A notification as the client sees it.  Only [id] and [is_read] are read
    by the provider; the other fields are carried along untouched (they are
    the ones the notification menu displays).  Identifiers are numbers
    compared with [===]. *)
Record Notification : Type := mkNotification {
  id : Z;
  is_read : bool;
  type : string;
  title : string;
  sender_name : string
}.

(** [{ ...notification, is_read }]: a copy with the read flag replaced. *)
Definition with_is_read (notification : Notification) (flag : bool) : Notification :=
  {| id := id notification;
     is_read := flag;
     type := type notification;
     title := title notification;
     sender_name := sender_name notification |}.

(** A decoded server-to-client message.  The source reads [data.type],
    [data.data], [data.notification_id] and [data.is_read] off one object;
    which of them is meaningful depends on the tag. *)
Record Envelope : Type := mkEnvelope {
  msg_type : string;
  msg_data : Notification;
  msg_notification_id : Z;
  msg_is_read : bool
}.

(** [event.data] of a WebSocket message: [JSON.parse] either throws or
    yields the decoded object. *)
Inductive Frame : Type :=
| Undecodable (raw : string)
| Decoded (data : Envelope).

(** Client-to-server message; the provider sends only [mark_read]. *)
Record ClientMessage : Type := mkClientMessage {
  out_type : string;
  out_notification_id : Z
}.

Definition User := string.
Definition Socket := nat.

(** The three REST endpoints below [REACT_APP_API_URL]. *)
Inductive Endpoint : Type :=
| NotificationsIndex                 (* /notifications/ *)
| NotificationItem (notificationId : Z)  (* /notifications/${notificationId} *)
| NotificationsMarkAllRead.          (* /notifications/mark-all-read *)

Inductive Method : Type := GET | PUT.

Record Request : Type := mkRequest {
  req_method : Method;
  req_endpoint : Endpoint;
  req_bearer : string
}.

(** Body of the list endpoint: [data.items] and [data.unread_count]. *)
Record Listing : Type := mkListing {
  items : list Notification;
  unread_count : Z
}.

(** What the provider looks at in a response: [response.ok] and the result
    of [response.json()], which rejects when the body does not decode. *)
Record Response : Type := mkResponse {
  ok : bool;
  json : option Listing
}.

(** [fetch] either rejects (network error) or resolves with a response. *)
Inductive FetchOutcome : Type :=
| NetworkError
| Responded (response : Response).

(** The callback handed to [setTimeout] in [onclose], as data: it closes
    over [currentUser] of the render that built [connectWebSocket]. *)
Inductive Task : Type :=
| Reconnect (currentUser : option User).

(** ** The machine *)

Record Machine : Type := mkMachine {
  (* React state of the provider *)
  notifications : list Notification;
  unreadCount : Z;
  socket : option Socket;
  isConnected : bool;
  (* browser *)
  token : option string;              (* localStorage 'token' *)
  opened : list (string * option User);
                                      (* sockets created so far: the token in
                                         the URL, and the [currentUser] their
                                         handlers close over *)
  sent : list (Socket * ClientMessage);
  closed : list Socket;               (* sockets on which close() was called *)
  timers : list (Task * Z);           (* pending timeouts, oldest first *)
  requests : list Request;            (* fetch calls issued *)
  console : list string               (* console.log / console.error lines *)
}.

Inductive Event : Type -> Type :=
| GetToken : Event (option string)
| Fetch (request : Request) : Event FetchOutcome
| NewWebSocket (tok : string) (currentUser : option User) : Event Socket
| Send (s : Socket) (message : ClientMessage) : Event unit
| Close (s : Socket) : Event unit
| SetTimeout (callback : Task) (ms : Z) : Event unit
| Console (line : string) : Event unit
| SetNotifications (f : list Notification -> list Notification) : Event unit
| SetUnreadCount (f : Z -> Z) : Event unit
| SetSocket (s : option Socket) : Event unit
| SetIsConnected (b : bool) : Event unit.

(** Programs: finite trees of events, ending in a value or a thrown error. *)
Inductive Prog (A : Type) : Type :=
| Ret (a : A)
| Throw (error : string)
| Vis {X : Type} (e : Event X) (k : X -> Prog A).

Arguments Ret {A} a.
Arguments Throw {A} error.
Arguments Vis {A X} e k.

Fixpoint bind {A B : Type} (p : Prog A) (f : A -> Prog B) : Prog B :=
  match p with
  | Ret a => f a
  | Throw error => Throw error
  | Vis e k => Vis e (fun x => bind (k x) f)
  end.

(** [try { p } catch (error) { handler error }] *)
Fixpoint try_catch {A : Type} (p : Prog A) (handler : string -> Prog A) : Prog A :=
  match p with
  | Ret a => Ret a
  | Throw error => handler error
  | Vis e k => Vis e (fun x => try_catch (k x) handler)
  end.

Definition trigger {X : Type} (e : Event X) : Prog X := Vis e Ret.

Declare Scope prog_scope.
Delimit Scope prog_scope with prog.
Notation "x <- p ;; q" := (bind p (fun x => q))
  (at level 61, p at next level, right associativity) : prog_scope.
Notation "p ;; q" := (bind p (fun _ => q))
  (at level 61, right associativity) : prog_scope.
Local Open Scope prog_scope.

(** How a program ends: it returns, or an exception escapes (for an async
    function: the promise resolves, or it rejects). *)
Inductive Completion (A : Type) : Type :=
| Returned (a : A)
| Rejected (error : string).

Arguments Returned {A} a.
Arguments Rejected {A} error.

Section Setters.
Variable m : Machine.

Definition set_notifications (l : list Notification) : Machine :=
  mkMachine l (unreadCount m) (socket m) (isConnected m) (token m)
    (opened m) (sent m) (closed m) (timers m) (requests m) (console m).

Definition set_unreadCount (c : Z) : Machine :=
  mkMachine (notifications m) c (socket m) (isConnected m) (token m)
    (opened m) (sent m) (closed m) (timers m) (requests m) (console m).

Definition set_socket (s : option Socket) : Machine :=
  mkMachine (notifications m) (unreadCount m) s (isConnected m) (token m)
    (opened m) (sent m) (closed m) (timers m) (requests m) (console m).

Definition set_isConnected (b : bool) : Machine :=
  mkMachine (notifications m) (unreadCount m) (socket m) b (token m)
    (opened m) (sent m) (closed m) (timers m) (requests m) (console m).

Definition set_opened (o : list (string * option User)) : Machine :=
  mkMachine (notifications m) (unreadCount m) (socket m) (isConnected m) (token m)
    o (sent m) (closed m) (timers m) (requests m) (console m).

Definition set_sent (o : list (Socket * ClientMessage)) : Machine :=
  mkMachine (notifications m) (unreadCount m) (socket m) (isConnected m) (token m)
    (opened m) o (closed m) (timers m) (requests m) (console m).

Definition set_closed (o : list Socket) : Machine :=
  mkMachine (notifications m) (unreadCount m) (socket m) (isConnected m) (token m)
    (opened m) (sent m) o (timers m) (requests m) (console m).

Definition set_timers (o : list (Task * Z)) : Machine :=
  mkMachine (notifications m) (unreadCount m) (socket m) (isConnected m) (token m)
    (opened m) (sent m) (closed m) o (requests m) (console m).

Definition set_requests (o : list Request) : Machine :=
  mkMachine (notifications m) (unreadCount m) (socket m) (isConnected m) (token m)
    (opened m) (sent m) (closed m) (timers m) o (console m).

Definition set_console (o : list string) : Machine :=
  mkMachine (notifications m) (unreadCount m) (socket m) (isConnected m) (token m)
    (opened m) (sent m) (closed m) (timers m) (requests m) o.
End Setters.

(** The meaning of one event.  [network] answers the [fetch] calls.  A state
    setter given a function applies it to the state at the time it runs, as
    React does for functional updates. *)
Definition handle (network : Request -> FetchOutcome) {X : Type} (e : Event X)
    (m : Machine) : X * Machine :=
  match e in Event T return T * Machine with
  | GetToken => (token m, m)
  | Fetch request => (network request, set_requests m (requests m ++ [request]))
  | NewWebSocket tok currentUser =>
      (List.length (opened m), set_opened m (opened m ++ [(tok, currentUser)]))
  | Send s message => (tt, set_sent m (sent m ++ [(s, message)]))
  | Close s => (tt, set_closed m (closed m ++ [s]))
  | SetTimeout callback ms => (tt, set_timers m (timers m ++ [(callback, ms)]))
  | Console line => (tt, set_console m (console m ++ [line]))
  | SetNotifications f => (tt, set_notifications m (f (notifications m)))
  | SetUnreadCount f => (tt, set_unreadCount m (f (unreadCount m)))
  | SetSocket s => (tt, set_socket m s)
  | SetIsConnected b => (tt, set_isConnected m b)
  end.

Fixpoint run (network : Request -> FetchOutcome) {A : Type} (p : Prog A)
    (m : Machine) : Completion A * Machine :=
  match p with
  | Ret a => (Returned a, m)
  | Throw error => (Rejected error, m)
  | Vis e k => let (x, m') := handle network e m in run network (k x) m'
  end.

(** ** The provider *)

(** [await fetch(url, { method, headers: { Authorization: `Bearer ${token}` } })] *)
Definition fetch (method : Method) (endpoint : Endpoint) (tok : string) : Prog Response :=
  outcome <- trigger (Fetch (mkRequest method endpoint tok)) ;;
  match outcome with
  | NetworkError => Throw "TypeError: Failed to fetch"
  | Responded response => Ret response
  end.

(** [await response.json()] *)
Definition response_json (response : Response) : Prog Listing :=
  match json response with
  | Some data => Ret data
  | None => Throw "SyntaxError: Unexpected token"
  end.

Definition handleNewNotification (notification : Notification) : Prog unit :=
  trigger (SetNotifications (fun prevNotifications => notification :: prevNotifications)) ;;
  trigger (SetUnreadCount (fun prevCount => prevCount + 1)).

Definition handleNotificationUpdate (data : Envelope) : Prog unit :=
  let notification_id := msg_notification_id data in
  let is_read' := msg_is_read data in
  trigger (SetNotifications (fun prevNotifications =>
    map (fun notification =>
           if id notification =? notification_id
           then with_is_read notification is_read'
           else notification)
        prevNotifications)) ;;
  if is_read'
  then trigger (SetUnreadCount (fun prevCount => Z.max 0 (prevCount - 1)))
  else Ret tt.

Definition fetchNotifications : Prog unit :=
  try_catch
    (tok <- trigger GetToken ;;
     match tok with
     | None => Ret tt
     | Some tok =>
         response <- fetch GET NotificationsIndex tok ;;
         if negb (ok response)
         then Throw "Failed to fetch notifications"
         else
           data <- response_json response ;;
           trigger (SetNotifications (fun _ => items data)) ;;
           trigger (SetUnreadCount (fun _ => unread_count data))
     end)
    (fun error => trigger (Console ("Error fetching notifications: " ++ error)%string)).

(** [socket] and [isConnected] are the values of the render that built the
    function. *)
Definition markAsRead (socket : option Socket) (isConnected : bool)
    (notificationId : Z) : Prog unit :=
  try_catch
    (tok <- trigger GetToken ;;
     match tok with
     | None => Ret tt
     | Some tok =>
         match socket, isConnected with
         | Some s, true =>
             trigger (Send s (mkClientMessage "mark_read" notificationId))
         | _, _ =>
             response <- fetch PUT (NotificationItem notificationId) tok ;;
             if negb (ok response)
             then Throw "Failed to mark notification as read"
             else
               trigger (SetNotifications (fun prevNotifications =>
                 map (fun notification =>
                        if id notification =? notificationId
                        then with_is_read notification true
                        else notification)
                     prevNotifications)) ;;
               trigger (SetUnreadCount (fun prevCount => Z.max 0 (prevCount - 1)))
         end
     end)
    (fun error => trigger (Console ("Error marking notification as read: " ++ error)%string)).

Definition markAllAsRead : Prog unit :=
  try_catch
    (tok <- trigger GetToken ;;
     match tok with
     | None => Ret tt
     | Some tok =>
         response <- fetch PUT NotificationsMarkAllRead tok ;;
         if negb (ok response)
         then Throw "Failed to mark all notifications as read"
         else
           trigger (SetNotifications (fun prevNotifications =>
             map (fun notification => with_is_read notification true)
                 prevNotifications)) ;;
           trigger (SetUnreadCount (fun _ => 0))
     end)
    (fun error => trigger (Console ("Error marking all notifications as read: " ++ error)%string)).

(** *** WebSocket handlers

    [connectWebSocket] creates the socket and installs four handlers on it.
    The handlers close over [newSocket] and over [currentUser]; they are the
    functions below, with what they close over as arguments. *)

Definition onopen (newSocket : Socket) : Prog unit :=
  trigger (Console "WebSocket connected") ;;
  trigger (SetIsConnected true) ;;
  trigger (SetSocket (Some newSocket)) ;;
  fetchNotifications.

Definition onmessage (event_data : Frame) : Prog unit :=
  try_catch
    (match event_data with
     | Undecodable raw => Throw "SyntaxError: Unexpected token"
     | Decoded data =>
         if (msg_type data =? "notification")%string then handleNewNotification (msg_data data)
         else if (msg_type data =? "notification_updated")%string then handleNotificationUpdate data
         else Ret tt
     end)
    (fun error => trigger (Console ("Error parsing WebSocket message: " ++ error)%string)).

Definition onclose (currentUser : option User) : Prog unit :=
  trigger (Console "WebSocket disconnected") ;;
  trigger (SetIsConnected false) ;;
  trigger (SetSocket None) ;;
  trigger (SetTimeout (Reconnect currentUser) 3000).

Definition onerror (newSocket : Socket) : Prog unit :=
  trigger (Console "WebSocket error:") ;;
  trigger (Close newSocket).

(** [new WebSocket(`${REACT_APP_WS_URL}?token=${token}`)] followed by the
    four handler assignments; [currentUser] is what the handlers see. *)
Definition connectWebSocket (currentUser : option User) : Prog unit :=
  tok <- trigger GetToken ;;
  match tok with
  | None => Ret tt
  | Some tok => _ <- trigger (NewWebSocket tok currentUser) ;; Ret tt
  end.

(** The body of a pending timeout. *)
Definition callback (t : Task) : Prog unit :=
  match t with
  | Reconnect currentUser =>
      match currentUser with
      | Some _ => connectWebSocket currentUser
      | None => Ret tt
      end
  end.

(** The effect of [useEffect(..., [currentUser])] and its cleanup, with the
    [currentUser] and [socket] of the render they belong to. *)
Definition effect (currentUser : option User) (socket : option Socket) : Prog unit :=
  match currentUser, socket with
  | Some _, None => connectWebSocket currentUser
  | _, _ => Ret tt
  end.

Definition cleanup (socket : option Socket) : Prog unit :=
  match socket with
  | Some s =>
      trigger (Close s) ;;
      trigger (SetSocket None) ;;
      trigger (SetIsConnected false)
  | None => Ret tt
  end.

(** The browser fires the oldest pending timeout: it leaves the pending list
    and its callback runs. *)
Definition fire_timer (network : Request -> FetchOutcome) (m : Machine)
    : Completion unit * Machine :=
  match timers m with
  | [] => (Returned tt, m)
  | (t, _) :: rest => run network (callback t) (set_timers m rest)
  end.

(** What the browser can deliver to the provider's socket handlers. *)
Inductive BrowserEvent : Type :=
| SocketOpen (s : Socket)
| SocketMessage (s : Socket) (event_data : Frame)
| SocketClose (s : Socket)
| SocketError (s : Socket)
| TimerElapsed.

Definition deliver (network : Request -> FetchOutcome) (ev : BrowserEvent)
    (m : Machine) : Completion unit * Machine :=
  match ev with
  | TimerElapsed => fire_timer network m
  | SocketOpen s =>
      match nth_error (opened m) s with
      | Some _ => run network (onopen s) m
      | None => (Returned tt, m)
      end
  | SocketMessage s event_data =>
      match nth_error (opened m) s with
      | Some _ => run network (onmessage event_data) m
      | None => (Returned tt, m)
      end
  | SocketClose s =>
      match nth_error (opened m) s with
      | Some (_, currentUser) => run network (onclose currentUser) m
      | None => (Returned tt, m)
      end
  | SocketError s =>
      match nth_error (opened m) s with
      | Some _ => run network (onerror s) m
      | None => (Returned tt, m)
      end
  end.

(** ** Operations on the local notification state

    The operations that write [notifications] and [unreadCount]: an inbound
    message, and the three exported actions.  [markAsRead] is the one built
    by a render of the current state.  Each operation comes with the network
    it runs against. *)
Inductive Op : Type :=
| OpMessage (event_data : Frame)
| OpMarkAsRead (notificationId : Z)
| OpMarkAllAsRead
| OpFetchNotifications.

Definition program (o : Op) (m : Machine) : Prog unit :=
  match o with
  | OpMessage event_data => onmessage event_data
  | OpMarkAsRead notificationId => markAsRead (socket m) (isConnected m) notificationId
  | OpMarkAllAsRead => markAllAsRead
  | OpFetchNotifications => fetchNotifications
  end.

Definition step (network : Request -> FetchOutcome) (o : Op) (m : Machine) : Machine :=
  snd (run network (program o m) m).

Fixpoint steps (ops : list ((Request -> FetchOutcome) * Op)) (m : Machine) : Machine :=
  match ops with
  | [] => m
  | (network, o) :: rest => steps rest (step network o m)
  end.

(** ** Specification vocabulary *)

(** Number of local entries whose read flag is false. *)
Definition unread (l : list Notification) : Z :=
  Z.of_nat (List.length (filter (fun n => negb (is_read n)) l)).

(** Number of local entries with identifier [i] and the given read flag. *)
Definition entries_with (i : Z) (flag : bool) (l : list Notification) : Z :=
  Z.of_nat (List.length (filter (fun n => (id n =? i) && Bool.eqb (is_read n) flag) l)).

(** The equality between the counter and the list. *)
Definition counter_matches_list (m : Machine) : Prop :=
  unreadCount m = unread (notifications m).

(** The local notification state: list and counter. *)
Definition local (m : Machine) : list Notification * Z :=
  (notifications m, unreadCount m).

(** The [data] field of a message that carries no notification. *)
Definition no_notification : Notification :=
  mkNotification 0 false EmptyString EmptyString EmptyString.

(** The message the gateway broadcasts after a mark-read of [i]. *)
Definition notification_updated (i : Z) (flag : bool) : Frame :=
  Decoded (mkEnvelope "notification_updated" no_notification i flag).

Definition notification_push (n : Notification) : Frame :=
  Decoded (mkEnvelope "notification" n 0 false).

(** The list patch of [handleNotificationUpdate] and [markAsRead]. *)
Definition patch (i : Z) (flag : bool) (notification : Notification) : Notification :=
  if id notification =? i then with_is_read notification flag else notification.

(** The list endpoint never reports a negative [unread_count]. *)
Definition listing_nonneg (network : Request -> FetchOutcome) : Prop :=
  forall tok response data,
    network (mkRequest GET NotificationsIndex tok) = Responded response ->
    json response = Some data ->
    0 <= unread_count data.

(** [socket && isConnected] of [markAsRead]: the call goes over the live
    channel when it is true, over the pull transport otherwise. *)
Definition live (socket : option Socket) (isConnected : bool) : bool :=
  match socket with
  | Some _ => isConnected
  | None => false
  end.

(** The ok response a pull-transport request made in state [m] gets, if it
    gets one: a token is stored, [fetch] resolves, and [response.ok]. *)
Definition answer (network : Request -> FetchOutcome) (m : Machine)
    (method : Method) (endpoint : Endpoint) : option Response :=
  match token m with
  | Some tok =>
      match network (mkRequest method endpoint tok) with
      | Responded response => if ok response then Some response else None
      | NetworkError => None
      end
  | None => None
  end.

(** An operation that fits the local list it is applied to.  A pushed
    notification is unread.  A read-flag update to true names an identifier
    carried by exactly one unread local entry; a read-flag update to false
    names no read local entry.  A mark-read that goes over the pull
    transport and succeeds names an identifier carried by exactly one unread
    local entry.  A pull that succeeds and decodes reports as unread count
    the number of unread items it returns.  Nothing is asked of an operation
    that fails, of a mark-read over the live channel, or of mark-all-read. *)
Definition coherent (m : Machine) (network : Request -> FetchOutcome) (o : Op) : Prop :=
  match o with
  | OpMessage (Undecodable _) => True
  | OpMessage (Decoded data) =>
      if (msg_type data =? "notification")%string
      then is_read (msg_data data) = false
      else if (msg_type data =? "notification_updated")%string
      then if msg_is_read data
           then entries_with (msg_notification_id data) false (notifications m) = 1
           else entries_with (msg_notification_id data) true (notifications m) = 0
      else True
  | OpMarkAsRead i =>
      if live (socket m) (isConnected m) then True
      else match answer network m PUT (NotificationItem i) with
           | Some _ => entries_with i false (notifications m) = 1
           | None => True
           end
  | OpMarkAllAsRead => True
  | OpFetchNotifications =>
      match answer network m GET NotificationsIndex with
      | Some response =>
          match json response with
          | Some data => unread_count data = unread (items data)
          | None => True
          end
      | None => True
      end
  end.

Fixpoint coherent_run (ops : list ((Request -> FetchOutcome) * Op)) (m : Machine) : Prop :=
  match ops with
  | [] => True
  | (network, o) :: rest => coherent m network o /\ coherent_run rest (step network o m)
  end.

(** A handler run that tells somebody about an error: the exception escapes,
    a line is written to the console, or the channel is closed. *)
Definition signals_error (before : Machine) (result : Completion unit * Machine) : Prop :=
  (exists error, fst result = Rejected error)
  \/ console (snd result) <> console before
  \/ closed (snd result) <> closed before.

(** A pull-transport request that fails: [fetch] rejects, or the response is
    not ok. *)
Definition failed (outcome : FetchOutcome) : Prop :=
  match outcome with
  | NetworkError => True
  | Responded response => ok response = false
  end.

(** *** Sample data *)

Definition sample (i : Z) (flag : bool) : Notification :=
  mkNotification i flag "LIKE" "liked your post" "alice".

(** A logged-in client whose channel is down. *)
Definition disconnected (l : list Notification) (c : Z) : Machine :=
  mkMachine l c None false (Some "jwt") [] [] [] [] [] [].

(** A logged-in client whose channel [0] is up. *)
Definition connected (l : list Notification) (c : Z) : Machine :=
  mkMachine l c (Some 0%nat) true (Some "jwt") [("jwt", Some "bob")] [] [] [] [] [].

Definition always (outcome : FetchOutcome) : Request -> FetchOutcome :=
  fun _ => outcome.

Definition accepted : FetchOutcome := Responded (mkResponse true None).
Definition refused : FetchOutcome := Responded (mkResponse false None).
Definition listed (l : list Notification) (c : Z) : FetchOutcome :=
  Responded (mkResponse true (Some (mkListing l c))).

(** ** The provider as a reactive system

    Everything that can make the provider run code: a browser event on one
    of its sockets or timers, a call of an exported action, the effect of
    [useEffect] (run by a render of the current state, so with its [socket])
    and the effect's cleanup (with the [socket] its own render saw). *)
Inductive Stimulus : Type :=
| Browser (ev : BrowserEvent)
| Action (o : Op)
| EffectRun (currentUser : option User)
| EffectCleanup (captured : option Socket).

Definition react (network : Request -> FetchOutcome) (st : Stimulus) (m : Machine)
    : Machine :=
  match st with
  | Browser ev => snd (deliver network ev m)
  | Action o => step network o m
  | EffectRun currentUser => snd (run network (effect currentUser (socket m)) m)
  | EffectCleanup captured => snd (run network (cleanup captured) m)
  end.

Fixpoint reacts (l : list ((Request -> FetchOutcome) * Stimulus)) (m : Machine) : Machine :=
  match l with
  | [] => m
  | (network, st) :: rest => reacts rest (react network st m)
  end.

(** [isConnected] is true exactly when a socket is held. *)
Definition flags_agree (m : Machine) : Prop :=
  isConnected m = match socket m with Some _ => true | None => false end.

(** The socket created last. *)
Definition latest (m : Machine) : Socket := pred (List.length (opened m)).

(** One round of the reconnect loop: the latest socket closes, then the
    oldest pending timeout elapses. *)
Definition round (network : Request -> FetchOutcome) (m : Machine) : Machine :=
  snd (deliver network TimerElapsed (snd (deliver network (SocketClose (latest m)) m))).

Fixpoint rounds (network : Request -> FetchOutcome) (n : nat) (m : Machine) : Machine :=
  match n with
  | O => m
  | S n' => rounds network n' (round network m)
  end.

(** A pull of the list that fails: [fetch] rejects, the response is not ok,
    or its body does not decode. *)
Definition listing_failed (outcome : FetchOutcome) : Prop :=
  match outcome with
  | NetworkError => True
  | Responded response => ok response = false \/ json response = None
  end.

(** The operations that can take a read flag back or drop an entry: a
    [notification_updated] message with read flag false, and a pull. *)
Definition may_revert (o : Op) : bool :=
  match o with
  | OpMessage (Decoded data) =>
      (msg_type data =? "notification_updated")%string && negb (msg_is_read data)
  | OpFetchNotifications => true
  | _ => false
  end.

(** ** The notification menu (components/layout/NotificationMenu.js) *)

(** [String(n)] for an integer. *)
Definition decimal (n : Z) : string := NilZero.string_of_int (Z.to_int n).

(** [formatNotificationTime], on the two instants in milliseconds: [now] is
    [new Date()], [date] is [new Date(timestamp)]. *)
Definition formatNotificationTime (now date : Z) : string :=
  let diffInMinutes := (now - date) / (1000 * 60) in
  if diffInMinutes <? 1 then "刚刚"
  else if diffInMinutes <? 60 then (decimal diffInMinutes ++ "分钟前")%string
  else if diffInMinutes <? 1440 then (decimal (diffInMinutes / 60) ++ "小时前")%string
  else (decimal (diffInMinutes / 1440) ++ "天前")%string.

(** ** Authentication (api/auth.js, context/AuthContext.js) *)

(** [a || b] on strings: an absent or empty [a] gives [b]. *)
Definition or_else (a : option string) (b : string) : string :=
  match a with
  | Some s => if (s =? EmptyString)%string then b else s
  | None => b
  end.

(** What [handleApiError] reads of an axios error: [error.response.data]
    with its [detail] and [message], and whether [error.request] is set.
    This is the error body as the API's own failures send it: an object
    whose [detail] and [message] are strings or absent.  A body of another
    shape ([null], a list as [detail]) is outside these two records. *)
Record ErrorData : Type := mkErrorData {
  err_detail : option string;
  err_message : option string
}.

Record AxiosError : Type := mkAxiosError {
  err_response : option ErrorData;
  err_request : bool
}.

(** The message of the [Error] that [handleApiError] builds. *)
Definition handleApiError (e : AxiosError) : string :=
  match err_response e with
  | Some data => or_else (err_detail data) (or_else (err_message data) "请求失败")
  | None =>
      if err_request e
      then "无法连接到服务器，请检查网络连接"
      else "请求出错"
  end.

(** An axios call: it resolves with [response.data] or rejects. *)
Inductive AxiosResult (A : Type) : Type :=
| Fulfilled (data : A)
| Failed (e : AxiosError).

Arguments Fulfilled {A} data.
Arguments Failed {A} e.

Record LoginData : Type := mkLoginData {
  access_token : string;
  user : User
}.

(** [loginUser], [registerUser], [getCurrentUser]: the axios call wrapped in
    [try { ... } catch (error) { throw handleApiError(error) }]; the argument
    is how the call ends. *)
Definition loginUser (r : AxiosResult LoginData) : Completion (string * User) :=
  match r with
  | Fulfilled data => Returned (access_token data, user data)
  | Failed e => Rejected (handleApiError e)
  end.

Definition registerUser (r : AxiosResult User) : Completion User :=
  match r with
  | Fulfilled data => Returned data
  | Failed e => Rejected (handleApiError e)
  end.

Definition getCurrentUser (r : AxiosResult User) : Completion User :=
  match r with
  | Fulfilled data => Returned data
  | Failed e => Rejected (handleApiError e)
  end.

Definition set_token (m : Machine) (t : option string) : Machine :=
  mkMachine (notifications m) (unreadCount m) (socket m) (isConnected m) t
    (opened m) (sent m) (closed m) (timers m) (requests m) (console m).

(** [localStorage.setItem('token', t)] as the provider's [getItem] guards
    will see it: an empty string reads as no token. *)
Definition stored (t : string) : option string :=
  if (t =? EmptyString)%string then None else Some t.

Module AuthContext.

(** React state of [AuthProvider]. *)
Record State : Type := mkState {
  currentUser : option User;
  loading : bool;
  error : option string
}.

(** Each function takes how its API call ends, the provider's state and the
    machine (for [localStorage] and the console), and gives how it completes
    and what it leaves.  The [finally] blocks set [loading] to false on both
    paths. *)
Definition checkAuthStatus (r : AxiosResult User) (a : State) (m : Machine)
    : Completion unit * State * Machine :=
  match getCurrentUser r with
  | Returned u => (Returned tt, mkState (Some u) false None, m)
  | Rejected err =>
      (Returned tt,
       mkState None false (Some err),
       set_token (set_console m (console m ++ [("Auth check failed: " ++ err)%string]))
         None)
  end.

Definition login (r : AxiosResult LoginData) (a : State) (m : Machine)
    : Completion User * State * Machine :=
  match loginUser r with
  | Returned (t, u) =>
      (Returned u, mkState (Some u) false None, set_token m (stored t))
  | Rejected err =>
      (Rejected err,
       mkState (currentUser a) false (Some (or_else (Some err) "登录失败")),
       m)
  end.

Definition register (r : AxiosResult User) (a : State) (m : Machine)
    : Completion User * State * Machine :=
  match registerUser r with
  | Returned newUser => (Returned newUser, mkState (currentUser a) false (error a), m)
  | Rejected err =>
      (Rejected err,
       mkState (currentUser a) false (Some (or_else (Some err) "注册失败")),
       m)
  end.

Definition logout (a : State) (m : Machine) : State * Machine :=
  (mkState None (loading a) (error a), set_token m None).

(** The mount effect: with a stored token the session is checked, otherwise
    loading ends at once. *)
Definition on_mount (r : AxiosResult User) (a : State) (m : Machine)
    : Completion unit * State * Machine :=
  match token m with
  | Some _ => checkAuthStatus r a m
  | None => (Returned tt, mkState (currentUser a) false (error a), m)
  end.

End AuthContext.

(** ** Basic facts *)

Lemma unread_nonneg (l : list Notification) : 0 <= unread l.
Proof. unfold unread. lia. Qed.

Lemma entries_with_nonneg (i : Z) (flag : bool) (l : list Notification) :
  0 <= entries_with i flag l.
Proof. unfold entries_with. lia. Qed.

Lemma unread_cons (n : Notification) (l : list Notification) :
  unread (n :: l) = (if is_read n then 0 else 1) + unread l.
Proof.
  unfold unread. cbn [filter]. destruct (is_read n); cbn [negb List.length]; lia.
Qed.

Lemma entries_with_cons (i : Z) (flag : bool) (n : Notification) (l : list Notification) :
  entries_with i flag (n :: l) =
  (if (id n =? i) && Bool.eqb (is_read n) flag then 1 else 0) + entries_with i flag l.
Proof.
  unfold entries_with. cbn [filter].
  destruct ((id n =? i) && Bool.eqb (is_read n) flag); cbn [List.length]; lia.
Qed.

Lemma unread_patch_true (i : Z) (l : list Notification) :
  unread (map (patch i true) l) = unread l - entries_with i false l.
Proof.
  induction l as [|n l IH]; [reflexivity|].
  cbn [map]. rewrite !unread_cons, entries_with_cons, IH.
  unfold patch. destruct (id n =? i), (is_read n) eqn:E;
    cbn [is_read with_is_read andb Bool.eqb]; rewrite ?E; lia.
Qed.

Lemma unread_patch_false (i : Z) (l : list Notification) :
  unread (map (patch i false) l) = unread l + entries_with i true l.
Proof.
  induction l as [|n l IH]; [reflexivity|].
  cbn [map]. rewrite !unread_cons, entries_with_cons, IH.
  unfold patch. destruct (id n =? i), (is_read n) eqn:E;
    cbn [is_read with_is_read andb Bool.eqb]; rewrite ?E; lia.
Qed.

Lemma unread_all_read (l : list Notification) :
  unread (map (fun notification => with_is_read notification true) l) = 0.
Proof.
  induction l as [|n l IH]; [reflexivity|].
  cbn [map]. rewrite unread_cons, IH. reflexivity.
Qed.

Lemma patch_absent (i : Z) (flag : bool) (l : list Notification) :
  (forall n, In n l -> id n <> i) -> map (patch i flag) l = l.
Proof.
  induction l as [|n l IH]; intros H; [reflexivity|].
  cbn [map]. rewrite IH by (intros n' Hn'; apply H; now right).
  unfold patch. destruct (Z.eqb_spec (id n) i) as [E|E]; [|reflexivity].
  exfalso. apply (H n); [now left | exact E].
Qed.

Lemma patch_idempotent (i : Z) (flag : bool) (l : list Notification) :
  map (patch i flag) (map (patch i flag) l) = map (patch i flag) l.
Proof.
  rewrite map_map. apply map_ext. intros n. unfold patch.
  destruct (id n =? i) eqn:E; cbn; rewrite E; reflexivity.
Qed.

Lemma patch_ids (i : Z) (flag : bool) (l : list Notification) :
  map id (map (patch i flag) l) = map id l.
Proof.
  rewrite map_map. apply map_ext. intros n. unfold patch.
  destruct (id n =? i); reflexivity.
Qed.

(** ** Running the provider's functions *)

Ltac run_step := cbn [run bind try_catch trigger handle].

Lemma run_handleNewNotification network notification m :
  run network (handleNewNotification notification) m =
  (Returned tt,
   set_unreadCount (set_notifications m (notification :: notifications m))
     (unreadCount m + 1)).
Proof. reflexivity. Qed.

Lemma local_handleNotificationUpdate network data m :
  local (snd (run network (handleNotificationUpdate data) m)) =
  (map (patch (msg_notification_id data) (msg_is_read data)) (notifications m),
   if msg_is_read data then Z.max 0 (unreadCount m - 1) else unreadCount m).
Proof.
  unfold handleNotificationUpdate. destruct (msg_is_read data); reflexivity.
Qed.

Lemma onmessage_notification network data m :
  msg_type data = "notification" ->
  run network (onmessage (Decoded data)) m =
  run network (handleNewNotification (msg_data data)) m.
Proof. intros E. unfold onmessage. rewrite E. reflexivity. Qed.

Lemma onmessage_notification_updated network data m :
  msg_type data = "notification_updated" ->
  run network (onmessage (Decoded data)) m =
  run network (handleNotificationUpdate data) m.
Proof.
  intros E. unfold onmessage, handleNotificationUpdate. rewrite E.
  destruct (msg_is_read data); reflexivity.
Qed.

Lemma onmessage_other network data m :
  msg_type data <> "notification" ->
  msg_type data <> "notification_updated" ->
  run network (onmessage (Decoded data)) m = (Returned tt, m).
Proof.
  intros E1 E2. unfold onmessage.
  destruct (String.eqb_spec (msg_type data) "notification") as [E|_]; [contradiction|].
  destruct (String.eqb_spec (msg_type data) "notification_updated") as [E|_]; [contradiction|].
  reflexivity.
Qed.

Lemma run_markAsRead_pull network tok i m response sock conn :
  token m = Some tok ->
  live sock conn = false ->
  network (mkRequest PUT (NotificationItem i) tok) = Responded response ->
  ok response = true ->
  run network (markAsRead sock conn i) m =
  (Returned tt,
   set_unreadCount
     (set_notifications
        (set_requests m (requests m ++ [mkRequest PUT (NotificationItem i) tok]))
        (map (patch i true) (notifications m)))
     (Z.max 0 (unreadCount m - 1))).
Proof.
  intros Ht Hc Hn Hok.
  destruct sock as [s|], conn; try discriminate Hc;
    unfold markAsRead, fetch; run_step; rewrite Ht; run_step;
    rewrite Hn; run_step; rewrite Hok; reflexivity.
Qed.

Lemma run_markAsRead_failed network tok i m sock conn :
  token m = Some tok ->
  live sock conn = false ->
  failed (network (mkRequest PUT (NotificationItem i) tok)) ->
  exists line,
    run network (markAsRead sock conn i) m =
    (Returned tt,
     set_console
       (set_requests m (requests m ++ [mkRequest PUT (NotificationItem i) tok]))
       (console m ++ [line])).
Proof.
  intros Ht Hc Hf.
  destruct sock as [s|], conn; try discriminate Hc;
    unfold markAsRead, fetch; run_step; rewrite Ht; run_step;
    destruct (network _) as [|response]; run_step;
    try (cbn in Hf; rewrite Hf); eexists; reflexivity.
Qed.

Lemma run_markAllAsRead_failed network tok m :
  token m = Some tok ->
  failed (network (mkRequest PUT NotificationsMarkAllRead tok)) ->
  exists line,
    run network markAllAsRead m =
    (Returned tt,
     set_console
       (set_requests m (requests m ++ [mkRequest PUT NotificationsMarkAllRead tok]))
       (console m ++ [line])).
Proof.
  intros Ht Hf.
  unfold markAllAsRead, fetch; run_step; rewrite Ht; run_step.
  destruct (network _) as [|response]; run_step;
    try (cbn in Hf; rewrite Hf); eexists; reflexivity.
Qed.

Lemma run_fetchNotifications_ok network tok m response data :
  token m = Some tok ->
  network (mkRequest GET NotificationsIndex tok) = Responded response ->
  ok response = true ->
  json response = Some data ->
  run network fetchNotifications m =
  (Returned tt,
   set_unreadCount
     (set_notifications
        (set_requests m (requests m ++ [mkRequest GET NotificationsIndex tok]))
        (items data))
     (unread_count data)).
Proof.
  intros Ht Hn Hok Hj.
  unfold fetchNotifications, fetch, response_json; run_step; rewrite Ht; run_step.
  rewrite Hn; run_step. rewrite Hok; cbn [negb]. rewrite Hj. reflexivity.
Qed.

(** The local state after each operation, in every case. *)

Lemma local_markAsRead network i m :
  local (step network (OpMarkAsRead i) m) = local m \/
  local (step network (OpMarkAsRead i) m) =
  (map (patch i true) (notifications m), Z.max 0 (unreadCount m - 1)).
Proof.
  unfold step, program, markAsRead, fetch. run_step.
  destruct (token m) as [tok|]; run_step; [|left; reflexivity].
  destruct (socket m) as [s|], (isConnected m); run_step; try (left; reflexivity);
    destruct (network _) as [|response]; run_step; try (left; reflexivity);
    destruct (ok response); run_step; (left; reflexivity) || (right; reflexivity).
Qed.

Lemma local_markAllAsRead network m :
  local (step network OpMarkAllAsRead m) = local m \/
  local (step network OpMarkAllAsRead m) =
  (map (fun notification => with_is_read notification true) (notifications m), 0).
Proof.
  unfold step, program, markAllAsRead, fetch. run_step.
  destruct (token m) as [tok|]; run_step; [|left; reflexivity].
  destruct (network _) as [|response]; run_step; try (left; reflexivity).
  destruct (ok response); run_step; (left; reflexivity) || (right; reflexivity).
Qed.

Lemma local_fetchNotifications network m :
  local (step network OpFetchNotifications m) = local m \/
  exists tok response data,
    network (mkRequest GET NotificationsIndex tok) = Responded response /\
    json response = Some data /\
    local (step network OpFetchNotifications m) = (items data, unread_count data).
Proof.
  unfold step, program, fetchNotifications, fetch, response_json. run_step.
  destruct (token m) as [tok|]; run_step; [|left; reflexivity].
  destruct (network _) as [|response] eqn:Hn; run_step; try (left; reflexivity).
  destruct (ok response); cbn [negb]; run_step; try (left; reflexivity).
  destruct (json response) as [data|] eqn:Hj; run_step; try (left; reflexivity).
  right. exists tok, response, data. repeat split; assumption || reflexivity.
Qed.

Lemma local_message network event_data m :
  local (step network (OpMessage event_data) m) =
  match event_data with
  | Undecodable _ => local m
  | Decoded data =>
      if (msg_type data =? "notification")%string
      then (msg_data data :: notifications m, unreadCount m + 1)
      else if (msg_type data =? "notification_updated")%string
      then (map (patch (msg_notification_id data) (msg_is_read data)) (notifications m),
            if msg_is_read data then Z.max 0 (unreadCount m - 1) else unreadCount m)
      else local m
  end.
Proof.
  unfold step, program, onmessage. destruct event_data as [raw|data]; [reflexivity|].
  destruct (msg_type data =? "notification")%string; [reflexivity|].
  destruct (msg_type data =? "notification_updated")%string; [|reflexivity].
  unfold handleNotificationUpdate. destruct (msg_is_read data); reflexivity.
Qed.

Lemma local_eq (m' : Machine) l c :
  local m' = (l, c) -> notifications m' = l /\ unreadCount m' = c.
Proof. unfold local. intros E. injection E as E1 E2. now split. Qed.

Lemma local_markAsRead_answered network i m :
  local (step network (OpMarkAsRead i) m) =
  if live (socket m) (isConnected m) then local m
  else match answer network m PUT (NotificationItem i) with
       | Some _ => (map (patch i true) (notifications m), Z.max 0 (unreadCount m - 1))
       | None => local m
       end.
Proof.
  unfold step, program, markAsRead, fetch, answer, live. run_step.
  destruct (token m) as [tok|]; run_step;
    [|destruct (socket m), (isConnected m); reflexivity].
  destruct (socket m) as [s|], (isConnected m); run_step; try reflexivity;
    destruct (network _) as [|response]; run_step; try reflexivity;
    destruct (ok response); reflexivity.
Qed.

Lemma local_fetchNotifications_answered network m :
  local (step network OpFetchNotifications m) =
  match answer network m GET NotificationsIndex with
  | Some response =>
      match json response with
      | Some data => (items data, unread_count data)
      | None => local m
      end
  | None => local m
  end.
Proof.
  unfold step, program, fetchNotifications, fetch, response_json, answer. run_step.
  destruct (token m) as [tok|]; run_step; [|reflexivity].
  destruct (network _) as [|response]; run_step; [reflexivity|].
  destruct (ok response); cbn [negb]; run_step; [|reflexivity].
  destruct (json response) as [data|]; reflexivity.
Qed.

Lemma entries_unread_le (i : Z) (l : list Notification) :
  entries_with i false l <= unread l.
Proof.
  pose proof (unread_patch_true i l) as E.
  pose proof (unread_nonneg (map (patch i true) l)). lia.
Qed.

Lemma step_preserves_counter network o m :
  counter_matches_list m -> coherent m network o ->
  counter_matches_list (step network o m).
Proof.
  unfold counter_matches_list. intros Hm Hc.
  destruct o as [event_data|i| |].
  - pose proof (local_message network event_data m) as E.
    destruct event_data as [raw|data]; cbn [coherent] in Hc.
    + apply local_eq in E as [-> ->]. exact Hm.
    + destruct (msg_type data =? "notification")%string.
      { apply local_eq in E as [-> ->]. rewrite unread_cons, Hc. lia. }
      destruct (msg_type data =? "notification_updated")%string.
      2:{ apply local_eq in E as [-> ->]. exact Hm. }
      apply local_eq in E as [-> ->].
      destruct (msg_is_read data).
      * pose proof (entries_unread_le (msg_notification_id data) (notifications m)).
        rewrite unread_patch_true, Hc. lia.
      * rewrite unread_patch_false, Hc. lia.
  - cbn [coherent] in Hc.
    pose proof (local_markAsRead_answered network i m) as E.
    destruct (live (socket m) (isConnected m)).
    { apply local_eq in E as [-> ->]. exact Hm. }
    destruct (answer network m PUT (NotificationItem i)) as [response|];
      apply local_eq in E as [-> ->]; [|exact Hm].
    pose proof (entries_unread_le i (notifications m)).
    rewrite unread_patch_true, Hc. lia.
  - destruct (local_markAllAsRead network m) as [E|E];
      apply local_eq in E as [-> ->]; [exact Hm|].
    now rewrite unread_all_read.
  - cbn [coherent] in Hc.
    pose proof (local_fetchNotifications_answered network m) as E.
    destruct (answer network m GET NotificationsIndex) as [response|].
    2:{ apply local_eq in E as [-> ->]. exact Hm. }
    destruct (json response) as [data|];
      apply local_eq in E as [-> ->]; [exact Hc | exact Hm].
Qed.

Lemma step_preserves_nonneg network o m :
  0 <= unreadCount m -> listing_nonneg network ->
  0 <= unreadCount (step network o m).
Proof.
  intros Hm Hn.
  destruct o as [event_data|i| |].
  - pose proof (local_message network event_data m) as E.
    destruct event_data as [raw|data].
    + apply local_eq in E as [_ ->]. exact Hm.
    + destruct (msg_type data =? "notification")%string.
      { apply local_eq in E as [_ ->]. lia. }
      destruct (msg_type data =? "notification_updated")%string;
        apply local_eq in E as [_ ->]; [|exact Hm].
      destruct (msg_is_read data); lia.
  - destruct (local_markAsRead network i m) as [E|E];
      apply local_eq in E as [_ ->]; lia.
  - destruct (local_markAllAsRead network m) as [E|E];
      apply local_eq in E as [_ ->]; lia.
  - destruct (local_fetchNotifications network m) as [E|(tok & response & data & Hr & Hj & E)];
      apply local_eq in E as [_ ->]; [exact Hm|].
    exact (Hn tok response data Hr Hj).
Qed.

Lemma listing_nonneg_listed (l : list Notification) (c : Z) :
  0 <= c -> listing_nonneg (always (listed l c)).
Proof.
  intros Hc tok response data H Hj. unfold always, listed in H.
  injection H as <-. cbn in Hj. injection Hj as <-. exact Hc.
Qed.

Lemma listing_nonneg_no_listing (response : Response) :
  json response = None -> listing_nonneg (always (Responded response)).
Proof.
  intros Hnone tok response' data H Hj. unfold always in H.
  injection H as <-. congruence.
Qed.

(** ** The claims *)

(** *** C1 *)

(** C1, as stated, fails: from a state where the counter equals the number of
    unread local entries, handling a [notification_updated] push for an entry
    that is already read decrements the counter although no entry changed,
    and the equality is lost. *)
Lemma counter_drifts_from_list :
  let m := disconnected [sample 1 true; sample 2 false] 1 in
  let m' := steps [(always accepted, OpMessage (notification_updated 1 true))] m in
  counter_matches_list m /\
  unreadCount m' = 0 /\ unread (notifications m') = 1 /\
  ~ counter_matches_list m'.
Proof.
  cbv zeta. repeat split; try reflexivity.
  unfold counter_matches_list. vm_compute. discriminate.
Qed.

(** C1, amended: the local unread counter stays equal to the number of unread
    local entries along every sequence of operations (inbound messages,
    mark-read, mark-all-read, pulls) in which each operation is coherent with
    the list it meets: pushed notifications are unread; a read-flag update to
    true, and a mark-read that goes over the pull transport and succeeds,
    name an identifier carried by exactly one unread entry; a read-flag
    update to false names no read entry; and a successful pull reports as
    unread count the number of unread items it returns.  Operations that
    fail, mark-read over the live channel and mark-all-read need no
    condition. *)
Theorem coherent_operations_keep_counter
    (ops : list ((Request -> FetchOutcome) * Op)) (m : Machine) :
  counter_matches_list m ->
  coherent_run ops m ->
  counter_matches_list (steps ops m).
Proof.
  revert m. induction ops as [|[network o] rest IH]; intros m Hm Hc.
  - exact Hm.
  - cbn [steps]. cbn [coherent_run] in Hc. destruct Hc as [Ho Hrest].
    apply IH; [|exact Hrest].
    now apply step_preserves_counter.
Qed.

Lemma coherent_operations_keep_counter_witness :
  counter_matches_list
    (steps [ (always accepted, OpMessage (notification_push (sample 2 false)));
             (always accepted, OpMarkAsRead 1);
             (always accepted, OpMessage (notification_updated 2 true));
             (always refused, OpMarkAsRead 9);
             (always (listed [sample 3 false; sample 4 true] 1), OpFetchNotifications);
             (always (Responded (mkResponse false (Some (mkListing [] 5)))),
              OpFetchNotifications);
             (always NetworkError, OpMarkAsRead 4);
             (always accepted, OpMarkAllAsRead) ]
           (disconnected [sample 1 false] 1)).
Proof.
  apply coherent_operations_keep_counter.
  - reflexivity.
  - cbn [coherent_run]. repeat split; reflexivity.
Defined.

(** *** C2 *)

(** C2, as stated, fails in its last part: it is not true that the counter is
    left alone whenever every local entry with the message's identifier is
    already read.  With the one matching entry read and the counter at 3, a
    [notification_updated] with read flag true brings the counter to 2. *)
Lemma update_of_read_entry_decrements :
  ~ (forall network data m,
       msg_type data = "notification_updated" ->
       (forall n, In n (notifications m) ->
                  id n = msg_notification_id data -> is_read n = true) ->
       unreadCount (snd (run network (onmessage (Decoded data)) m)) = unreadCount m).
Proof.
  intros H.
  specialize (H (always accepted)
                (mkEnvelope "notification_updated" (sample 0 false) 1 true)
                (disconnected [sample 1 true] 3) eq_refl).
  cbn in H. assert (2 = 3) as E; [|discriminate E].
  apply H. intros n [<-|[]] _. reflexivity.
Qed.

(** C2, amended: on a [notification_updated] message the local list keeps its
    identifiers in the same order, every entry with the message's identifier
    gets the message's read flag and every other entry is untouched, and the
    counter is decremented (clamped at zero) exactly when the message's read
    flag is true, whatever the entry's flag was before. *)
Theorem notification_updated_patches_in_place
    (network : Request -> FetchOutcome) (data : Envelope) (m : Machine) :
  msg_type data = "notification_updated" ->
  let m' := snd (run network (onmessage (Decoded data)) m) in
  map id (notifications m') = map id (notifications m) /\
  (forall k n, nth_error (notifications m) k = Some n ->
     nth_error (notifications m') k =
     Some (if id n =? msg_notification_id data
           then with_is_read n (msg_is_read data) else n)) /\
  unreadCount m' =
    (if msg_is_read data then Z.max 0 (unreadCount m - 1) else unreadCount m).
Proof.
  intros E m'. subst m'. rewrite (onmessage_notification_updated _ _ _ E).
  pose proof (local_handleNotificationUpdate network data m) as L.
  apply local_eq in L as [-> ->]. repeat split.
  - apply patch_ids.
  - intros k n Hk. rewrite nth_error_map, Hk. reflexivity.
Qed.

Lemma notification_updated_patches_in_place_witness :
  let m' := snd (run (always accepted)
                     (onmessage (notification_updated 2 true))
                     (connected [sample 1 false; sample 2 false; sample 3 true] 2)) in
  notifications m' = [sample 1 false; sample 2 true; sample 3 true] /\
  unreadCount m' = 1.
Proof.
  pose proof (notification_updated_patches_in_place (always accepted)
                (mkEnvelope "notification_updated" no_notification 2 true)
                (connected [sample 1 false; sample 2 false; sample 3 true] 2)
                eq_refl) as [_ [_ Hc]].
  split; [reflexivity | exact Hc].
Defined.

(** *** C3 *)

(** C3, as stated, fails: with two unread entries and the counter at 2, a
    successful pull-transport mark-read of entry 1 followed by the
    [notification_updated] broadcast for entry 1 leaves the counter at 0,
    while the mark-read alone leaves it at 1. *)
Lemma second_delivery_decrements_again :
  ~ (forall network tok i m response,
       token m = Some tok ->
       live (socket m) (isConnected m) = false ->
       network (mkRequest PUT (NotificationItem i) tok) = Responded response ->
       ok response = true ->
       local (step network (OpMessage (notification_updated i true))
                (step network (OpMarkAsRead i) m)) =
       local (step network (OpMarkAsRead i) m)).
Proof.
  intros H.
  specialize (H (always accepted) "jwt" 1
                (disconnected [sample 1 false; sample 2 false] 2)
                (mkResponse true None) eq_refl eq_refl eq_refl eq_refl).
  vm_compute in H. discriminate H.
Qed.

(** C3, amended: a successful pull-transport mark-read of an identifier and
    the handling of the [notification_updated] broadcast (read flag true) for
    it produce, each alone, the same local list and counter; performing both
    yields the same list as one of them, but the counter is decremented once
    per delivery, clamped at zero, so it ends at max(0, n-2), and the
    combined state equals the single one when the counter was at most 1. *)
Theorem mark_read_then_broadcast
    (network : Request -> FetchOutcome) (tok : string) (i : Z) (m : Machine)
    (response : Response) :
  token m = Some tok ->
  live (socket m) (isConnected m) = false ->
  network (mkRequest PUT (NotificationItem i) tok) = Responded response ->
  ok response = true ->
  let pull := step network (OpMarkAsRead i) m in
  let push := step network (OpMessage (notification_updated i true)) m in
  let both := step network (OpMessage (notification_updated i true)) pull in
  local pull = local push /\
  notifications both = notifications pull /\
  unreadCount both = Z.max 0 (unreadCount m - 2) /\
  (unreadCount m <= 1 -> local both = local pull).
Proof.
  intros Ht Hl Hn Hok pull push both.
  assert (local pull = (map (patch i true) (notifications m), Z.max 0 (unreadCount m - 1)))
    as Epull.
  { subst pull. unfold step, program.
    rewrite (run_markAsRead_pull _ _ _ _ _ _ _ Ht Hl Hn Hok). reflexivity. }
  assert (local push = (map (patch i true) (notifications m), Z.max 0 (unreadCount m - 1)))
    as Epush.
  { subst push. rewrite local_message. reflexivity. }
  assert (local both =
          (map (patch i true) (notifications pull), Z.max 0 (unreadCount pull - 1)))
    as Eboth.
  { subst both. rewrite local_message. reflexivity. }
  apply local_eq in Epull as [Lpull Cpull].
  apply local_eq in Eboth as [Lboth Cboth].
  assert (notifications both = notifications pull) as Elist.
  { rewrite Lboth, Lpull. apply patch_idempotent. }
  split; [unfold local at 1; rewrite Lpull, Cpull; symmetry; exact Epush|].
  split; [exact Elist|].
  split; [rewrite Cboth, Cpull; lia|].
  intros Hle. unfold local. rewrite Elist. f_equal. rewrite Cboth, Cpull. lia.
Qed.

Lemma mark_read_then_broadcast_witness :
  let m := disconnected [sample 1 false; sample 2 true] 1 in
  let pull := step (always accepted) (OpMarkAsRead 1) m in
  let both := step (always accepted) (OpMessage (notification_updated 1 true)) pull in
  notifications both = notifications pull /\ unreadCount both = 0.
Proof.
  pose proof (mark_read_then_broadcast (always accepted) "jwt" 1
                (disconnected [sample 1 false; sample 2 true] 1)
                (mkResponse true None) eq_refl eq_refl eq_refl eq_refl)
    as [_ [Hlist [Hcount _]]].
  split; [exact Hlist | exact Hcount].
Defined.

(** *** C4 *)

Lemma fetchNotifications_frame network tok m :
  token m = Some tok ->
  let m' := snd (run network fetchNotifications m) in
  requests m' = requests m ++ [mkRequest GET NotificationsIndex tok] /\
  socket m' = socket m /\ isConnected m' = isConnected m.
Proof.
  intros Ht. unfold fetchNotifications, fetch, response_json. run_step.
  rewrite Ht. run_step.
  destruct (network _) as [|response]; run_step; [now repeat split|].
  destruct (ok response); cbn [negb]; run_step; [|now repeat split].
  destruct (json response); run_step; now repeat split.
Qed.

Lemma run_onopen network s m :
  run network (onopen s) m =
  run network fetchNotifications
    (set_socket
       (set_isConnected (set_console m (console m ++ ["WebSocket connected"])) true)
       (Some s)).
Proof. reflexivity. Qed.

(** C4, as stated, fails: an open does not always pull.  When no token is
    stored at the moment the socket opens, the handler still marks the
    provider connected to the socket, but it issues no request and the local
    list and counter stay as they were, although the server would have
    answered with a listing. *)
Lemma open_without_token_pulls_nothing :
  let network := always (listed [sample 8 false] 5) in
  let m := mkMachine [sample 1 false] 1 None false None
             [("jwt", Some "bob")] [] [] [] [] [] in
  let m' := snd (run network (onopen 0%nat) m) in
  socket m' = Some 0%nat /\ isConnected m' = true /\
  requests m' = [] /\ local m' = local m.
Proof. cbv zeta. repeat split; reflexivity. Qed.

(** C4, amended: the open handler, in every local state, marks the provider
    connected to the new socket and calls the pull of the notification
    list; nothing in it looks at what was pushed.  The pull is requested
    exactly when a token is stored at that moment: with a token, one GET of
    the list endpoint carrying it is issued, and when that pull succeeds the
    local list and counter are replaced by the returned items and unread
    count; with no token, nothing is requested and the local list and
    counter are unchanged. *)
Theorem open_handler_pulls
    (network : Request -> FetchOutcome) (s : Socket) (m : Machine) :
  let m' := snd (run network (onopen s) m) in
  socket m' = Some s /\ isConnected m' = true /\
  match token m with
  | Some tok =>
      requests m' = requests m ++ [mkRequest GET NotificationsIndex tok] /\
      (forall response data,
         network (mkRequest GET NotificationsIndex tok) = Responded response ->
         ok response = true ->
         json response = Some data ->
         notifications m' = items data /\ unreadCount m' = unread_count data)
  | None => requests m' = requests m /\ local m' = local m
  end.
Proof.
  intros m'. subst m'. rewrite run_onopen.
  set (m1 := set_socket _ _).
  destruct (token m) as [tok|] eqn:Ht.
  - assert (token m1 = Some tok) as Ht1 by exact Ht.
    destruct (fetchNotifications_frame network tok m1 Ht1) as (Hr & Hs & Hc).
    split; [exact Hs|]. split; [exact Hc|]. split; [exact Hr|].
    intros response data Hn Hok Hj.
    rewrite (run_fetchNotifications_ok _ _ _ _ _ Ht1 Hn Hok Hj). split; reflexivity.
  - assert (token m1 = None) as Ht1 by exact Ht.
    unfold fetchNotifications. run_step. rewrite Ht1. run_step.
    repeat split; reflexivity.
Qed.

Lemma open_handler_pulls_witness :
  let m' := snd (run (always (listed [sample 8 false; sample 9 true] 5)) (onopen 0%nat)
                     (disconnected [sample 1 false] 1)) in
  socket m' = Some 0%nat /\ isConnected m' = true /\
  requests m' = [mkRequest GET NotificationsIndex "jwt"] /\
  notifications m' = [sample 8 false; sample 9 true] /\ unreadCount m' = 5.
Proof.
  pose proof (open_handler_pulls (always (listed [sample 8 false; sample 9 true] 5))
                0%nat (disconnected [sample 1 false] 1))
    as (Hs & Hc & Hr & Hpull).
  destruct (Hpull _ _ eq_refl eq_refl eq_refl) as [Hl Hn].
  repeat split; assumption.
Defined.

(** *** C5 *)

(** C5, as stated, fails: the scheduled reconnect is not cancelled by the
    teardown.  Channel 0 of a logged-in client closes; the cleanup of the
    effect then runs (with either value of [socket] it may have closed
    over); the timeout is still pending, and when it elapses with the token
    still stored a second socket is created. *)
Lemma reconnect_survives_teardown :
  let network := always accepted in
  let m1 := snd (deliver network (SocketClose 0%nat) (connected [] 0)) in
  let torn_down := snd (run network (cleanup None) m1) in
  let torn_down' := snd (run network (cleanup (Some 0%nat)) m1) in
  timers torn_down = [(Reconnect (Some "bob"), 3000)] /\
  timers torn_down' = [(Reconnect (Some "bob"), 3000)] /\
  opened (snd (deliver network TimerElapsed torn_down)) =
    [("jwt", Some "bob"); ("jwt", Some "bob")] /\
  opened (snd (deliver network TimerElapsed torn_down')) =
    [("jwt", Some "bob"); ("jwt", Some "bob")].
Proof. cbv zeta. repeat split; reflexivity. Qed.

(** C5, amended: on every close of the channel the provider becomes
    disconnected and schedules one reconnect 3000 ms later; the cleanup of
    the effect leaves the pending timeouts as they are; and when the timeout
    fires, a new socket is created exactly when the [currentUser] its
    handler closed over is set and a token is stored. *)
Theorem reconnect_scheduled_and_guarded
    (network : Request -> FetchOutcome) (currentUser : option User)
    (captured : option Socket) (m : Machine) :
  (let m' := snd (run network (onclose currentUser) m) in
   socket m' = None /\ isConnected m' = false /\
   timers m' = timers m ++ [(Reconnect currentUser, 3000)]) /\
  timers (snd (run network (cleanup captured) m)) = timers m /\
  opened (snd (run network (callback (Reconnect currentUser)) m)) =
    match currentUser, token m with
    | Some _, Some tok => opened m ++ [(tok, currentUser)]
    | _, _ => opened m
    end.
Proof.
  split; [repeat split|split].
  - destruct captured; reflexivity.
  - destruct currentUser as [u|]; [|reflexivity].
    unfold callback, connectWebSocket. run_step.
    destruct (token m); reflexivity.
Qed.

(** *** C6 *)

(** C6, as stated, fails in its first part: a failed pull-transport
    mark-read does not reach the caller as a failure.  The call below is
    refused by the server and still returns normally. *)
Lemma failed_mark_read_returns_normally :
  ~ (forall network tok i m sock conn,
       token m = Some tok ->
       live sock conn = false ->
       failed (network (mkRequest PUT (NotificationItem i) tok)) ->
       exists error, fst (run network (markAsRead sock conn i) m) = Rejected error).
Proof.
  intros H.
  destruct (H (always refused) "jwt" 1 (disconnected [sample 1 false] 1) None false
              eq_refl eq_refl eq_refl) as [error E].
  vm_compute in E. discriminate E.
Qed.

(** C6, amended: when a pull-transport mark-read or mark-all-read fails (the
    request is rejected or the response is not ok), the function writes one
    line to the console and returns normally, as a successful call does; the
    local list and counter are unchanged. *)
Theorem failed_pull_leaves_local_state
    (network : Request -> FetchOutcome) (tok : string) (i : Z) (m : Machine)
    (sock : option Socket) (conn : bool) :
  token m = Some tok ->
  live sock conn = false ->
  (failed (network (mkRequest PUT (NotificationItem i) tok)) ->
   let r := run network (markAsRead sock conn i) m in
   fst r = Returned tt /\ local (snd r) = local m /\
   exists line, console (snd r) = console m ++ [line]) /\
  (failed (network (mkRequest PUT NotificationsMarkAllRead tok)) ->
   let r := run network markAllAsRead m in
   fst r = Returned tt /\ local (snd r) = local m /\
   exists line, console (snd r) = console m ++ [line]).
Proof.
  intros Ht Hl. split; intros Hf r; subst r.
  - destruct (run_markAsRead_failed network tok i m sock conn Ht Hl Hf) as [line ->].
    split; [reflexivity|]. split; [reflexivity|]. exists line. reflexivity.
  - destruct (run_markAllAsRead_failed network tok m Ht Hf) as [line ->].
    split; [reflexivity|]. split; [reflexivity|]. exists line. reflexivity.
Qed.

Lemma failed_pull_leaves_local_state_witness :
  let m := disconnected [sample 1 false; sample 2 false] 2 in
  local (snd (run (always NetworkError) (markAsRead None false 1) m)) = local m /\
  local (snd (run (always refused) markAllAsRead m)) = local m.
Proof.
  destruct (failed_pull_leaves_local_state (always NetworkError) "jwt" 1
              (disconnected [sample 1 false; sample 2 false] 2) None false
              eq_refl eq_refl) as [Hone _].
  destruct (failed_pull_leaves_local_state (always refused) "jwt" 1
              (disconnected [sample 1 false; sample 2 false] 2) None false
              eq_refl eq_refl) as [_ Hall].
  split.
  - apply (Hone I).
  - apply (Hall eq_refl).
Defined.

(** *** C7 *)

(** C7, as stated, fails in its second part: a well-formed message with an
    unknown type tag is dropped without any error being signalled.  For the
    tag [ping] the handler returns normally and the machine, console
    included, is what it was. *)
Lemma unknown_tag_dropped_silently :
  ~ (forall network data m,
       msg_type data <> "notification" ->
       msg_type data <> "notification_updated" ->
       signals_error m (run network (onmessage (Decoded data)) m)).
Proof.
  intros H.
  destruct (H (always accepted) (mkEnvelope "ping" (sample 0 false) 0 false)
              (connected [sample 1 false] 1))
    as [[error E]|[E|E]]; try discriminate.
  - apply E. reflexivity.
  - apply E. reflexivity.
Qed.

(** C7, amended: a message that fails to decode makes the handler write one
    line to the console and return normally, with the local state, the
    socket and the set of closed channels unchanged; a decoded message whose
    type tag is neither [notification] nor [notification_updated] is ignored:
    the handler returns normally and nothing at all changes, the console
    included. *)
Theorem undecodable_logged_unknown_ignored
    (network : Request -> FetchOutcome) (m : Machine) :
  (forall raw,
     let r := run network (onmessage (Undecodable raw)) m in
     fst r = Returned tt /\ local (snd r) = local m /\
     socket (snd r) = socket m /\ isConnected (snd r) = isConnected m /\
     closed (snd r) = closed m /\
     exists line, console (snd r) = console m ++ [line]) /\
  (forall data,
     msg_type data <> "notification" ->
     msg_type data <> "notification_updated" ->
     run network (onmessage (Decoded data)) m = (Returned tt, m)).
Proof.
  split.
  - intros raw r. subst r. cbn.
    repeat (split; [reflexivity|]). eexists. reflexivity.
  - intros data E1 E2. now apply onmessage_other.
Qed.

Lemma undecodable_logged_unknown_ignored_witness :
  let m := connected [sample 1 false] 1 in
  local (snd (run (always accepted) (onmessage (Undecodable "{")) m)) = local m /\
  run (always accepted) (onmessage (Decoded (mkEnvelope "pong" (sample 0 false) 0 false))) m
  = (Returned tt, m).
Proof.
  destruct (undecodable_logged_unknown_ignored (always accepted)
              (connected [sample 1 false] 1)) as [Hraw Hother].
  split.
  - apply (Hraw "{").
  - apply Hother; discriminate.
Defined.

(** *** C8 *)

(** C8: with a socket present and connected, mark-read returns normally
    without touching the local list or counter and without issuing any pull
    request; with a stored token, the one thing it does is send a
    [mark_read] message for the identifier over that socket. *)
Theorem live_mark_read_only_sends
    (network : Request -> FetchOutcome) (s : Socket) (i : Z) (m : Machine) :
  let r := run network (markAsRead (Some s) true i) m in
  fst r = Returned tt /\
  local (snd r) = local m /\
  requests (snd r) = requests m /\
  console (snd r) = console m /\
  snd r = match token m with
          | Some _ => set_sent m (sent m ++ [(s, mkClientMessage "mark_read" i)])
          | None => m
          end.
Proof.
  unfold markAsRead. run_step. destruct (token m); repeat split; reflexivity.
Qed.

(** *** C9 *)

(** C9: a [notification_updated] message with read flag true whose identifier
    matches no local entry leaves the list as it is and still decrements the
    counter, clamped at zero. *)
Theorem update_of_absent_entry_decrements
    (network : Request -> FetchOutcome) (data : Envelope) (m : Machine) :
  msg_type data = "notification_updated" ->
  msg_is_read data = true ->
  (forall n, In n (notifications m) -> id n <> msg_notification_id data) ->
  let m' := snd (run network (onmessage (Decoded data)) m) in
  notifications m' = notifications m /\
  unreadCount m' = Z.max 0 (unreadCount m - 1).
Proof.
  intros E Hr Habsent m'. subst m'. rewrite (onmessage_notification_updated _ _ _ E).
  pose proof (local_handleNotificationUpdate network data m) as L.
  apply local_eq in L as [-> ->]. rewrite Hr. split; [|reflexivity].
  now apply patch_absent.
Qed.

Lemma update_of_absent_entry_decrements_witness :
  let m := connected [sample 1 false; sample 2 true] 1 in
  let m' := snd (run (always accepted) (onmessage (notification_updated 7 true)) m) in
  notifications m' = notifications m /\ unreadCount m' = 0.
Proof.
  apply (update_of_absent_entry_decrements (always accepted)
           (mkEnvelope "notification_updated" no_notification 7 true)
           (connected [sample 1 false; sample 2 true] 1)).
  - reflexivity.
  - reflexivity.
  - intros n [<-|[<-|[]]]; cbn; lia.
Defined.

(** *** C10 *)

(** C10: the local unread counter never becomes negative.  From a nonnegative
    counter, every sequence of operations (inbound messages, mark-read,
    mark-all-read, pulls) run against networks whose list endpoint reports a
    nonnegative unread count ends with a nonnegative counter. *)
Theorem unreadCount_never_negative
    (ops : list ((Request -> FetchOutcome) * Op)) (m : Machine) :
  0 <= unreadCount m ->
  (forall network o, In (network, o) ops -> listing_nonneg network) ->
  0 <= unreadCount (steps ops m).
Proof.
  revert m. induction ops as [|[network o] rest IH]; intros m Hm Hn.
  - exact Hm.
  - cbn [steps]. apply IH.
    + apply step_preserves_nonneg; [exact Hm|]. apply (Hn network o). now left.
    + intros network' o' Hin. apply (Hn network' o'). now right.
Qed.

Lemma unreadCount_never_negative_witness :
  0 <= unreadCount
         (steps [ (always accepted, OpMessage (notification_updated 9 true));
                  (always accepted, OpMessage (notification_updated 9 true));
                  (always accepted, OpMessage (notification_push (sample 5 false)));
                  (always (listed [sample 6 false] 4), OpFetchNotifications);
                  (always accepted, OpMarkAsRead 6);
                  (always accepted, OpMarkAllAsRead) ]
                (disconnected [sample 1 false] 1)).
Proof.
  apply unreadCount_never_negative.
  - cbn. lia.
  - intros network o Hin. cbn [In] in Hin.
    destruct Hin as [E|[E|[E|[E|[E|[E|[]]]]]]]; injection E as <- _;
      solve [ apply listing_nonneg_no_listing; reflexivity
            | apply listing_nonneg_listed; lia ].
Defined.


(** ** Further properties of the provider *)

Ltac unfold_provider :=
  unfold react, deliver, fire_timer, step, program, callback, effect, cleanup,
    onopen, onmessage, onclose, onerror, connectWebSocket, fetchNotifications,
    markAsRead, markAllAsRead, handleNewNotification, handleNotificationUpdate,
    fetch, response_json.

Ltac case_scrutinee :=
  match goal with
  | |- context [match ?x with _ => _ end] => destruct x eqn:?
  end.

Ltac fields :=
  cbn [snd fst notifications unreadCount socket isConnected token opened sent
       closed timers requests console set_notifications set_unreadCount
       set_socket set_isConnected set_opened set_sent set_closed set_timers
       set_requests set_console].

(** Runs the program of the goal along every branch it can take. *)
Ltac explore := unfold_provider; repeat (run_step; fields; try case_scrutinee).

Ltac each_stimulus st :=
  destruct st as [[?s|?s ?event_data|?s|?s|]|[?event_data|?i| |]|?cu|?captured].

Lemma react_token network st m : token (react network st m) = token m.
Proof. each_stimulus st; explore; reflexivity || congruence. Qed.

Lemma react_requests network st m :
  exists extra,
    requests (react network st m) = requests m ++ extra /\
    forall r, In r extra -> token m = Some (req_bearer r).
Proof.
  each_stimulus st; explore;
    solve [ exists []; split; [symmetry; apply app_nil_r | intros r []]
          | eexists; split;
            [reflexivity | intros r [<-|[]]; cbn [req_bearer]; congruence] ].
Qed.

Lemma react_opened_without_token network st m :
  token m = None -> opened (react network st m) = opened m.
Proof. intros Ht. each_stimulus st; explore; reflexivity || congruence. Qed.

Lemma react_flags network st m : flags_agree m -> flags_agree (react network st m).
Proof.
  unfold flags_agree. intros H.
  each_stimulus st; explore; try assumption; try reflexivity; congruence.
Qed.

Lemma react_sent network st m :
  sent (react network st m) =
  sent m ++
  match st with
  | Action (OpMarkAsRead i) =>
      match token m, socket m, isConnected m with
      | Some _, Some s, true => [(s, mkClientMessage "mark_read" i)]
      | _, _, _ => []
      end
  | _ => []
  end.
Proof. each_stimulus st; explore; rewrite ?app_nil_r; reflexivity. Qed.

(** *** Inbound notifications *)

(** X1: a burst of [notification] messages is kept newest first: after the
    messages for [ns] have been handled in order, the local list is [ns]
    reversed in front of the old list, and the counter has grown by the
    number of messages, whatever the read flags of the pushed records. *)
Theorem pushes_are_kept_newest_first
    (network : Request -> FetchOutcome) (ns : list Notification) (m : Machine) :
  let m' := steps (map (fun n => (network, OpMessage (notification_push n))) ns) m in
  notifications m' = rev ns ++ notifications m /\
  unreadCount m' = unreadCount m + Z.of_nat (List.length ns).
Proof.
  cbv zeta. revert m. induction ns as [|n ns IH]; intros m.
  - cbn. split; [reflexivity | lia].
  - cbn [map steps].
    pose proof (local_message network (notification_push n) m) as E.
    remember (step network (OpMessage (notification_push n)) m) as m1 eqn:Em1.
    destruct (IH m1) as [Hl Hc].
    cbn in E. apply local_eq in E as [El Ec].
    rewrite Hl, Hc, El, Ec. cbn [rev List.length]. rewrite <- app_assoc.
    split; [reflexivity | lia].
Qed.

(** *** Mark-all-read *)

Lemma run_markAllAsRead_ok network tok m response :
  token m = Some tok ->
  network (mkRequest PUT NotificationsMarkAllRead tok) = Responded response ->
  ok response = true ->
  run network markAllAsRead m =
  (Returned tt,
   set_unreadCount
     (set_notifications
        (set_requests m (requests m ++ [mkRequest PUT NotificationsMarkAllRead tok]))
        (map (fun notification => with_is_read notification true) (notifications m)))
     0).
Proof.
  intros Ht Hn Hok. unfold markAllAsRead, fetch. run_step. rewrite Ht. run_step.
  rewrite Hn. run_step. rewrite Hok. reflexivity.
Qed.

(** X2: a successful mark-all-read leaves every local entry read, with the
    identifiers in their old order, and the counter at zero; so afterwards
    the counter equals the number of unread local entries, whatever the two
    were before. *)
Theorem mark_all_read_resynchronises
    (network : Request -> FetchOutcome) (tok : string) (response : Response)
    (m : Machine) :
  token m = Some tok ->
  network (mkRequest PUT NotificationsMarkAllRead tok) = Responded response ->
  ok response = true ->
  let m' := step network OpMarkAllAsRead m in
  Forall (fun n => is_read n = true) (notifications m') /\
  map id (notifications m') = map id (notifications m) /\
  unreadCount m' = 0 /\
  counter_matches_list m'.
Proof.
  intros Ht Hn Hok m'. subst m'. unfold step, program, counter_matches_list.
  rewrite (run_markAllAsRead_ok _ _ _ _ Ht Hn Hok). fields.
  split; [|split; [|split]].
  - apply Forall_forall. intros n Hin. apply in_map_iff in Hin as (n0 & <- & _).
    reflexivity.
  - rewrite map_map. apply map_ext. reflexivity.
  - reflexivity.
  - now rewrite unread_all_read.
Qed.

Lemma mark_all_read_resynchronises_witness :
  let m' := step (always accepted) OpMarkAllAsRead
                 (disconnected [sample 1 false; sample 2 true; sample 3 false] 7) in
  notifications m' = [sample 1 true; sample 2 true; sample 3 true] /\
  counter_matches_list m'.
Proof.
  pose proof (mark_all_read_resynchronises (always accepted) "jwt" (mkResponse true None)
                (disconnected [sample 1 false; sample 2 true; sample 3 false] 7)
                eq_refl eq_refl eq_refl) as (_ & _ & _ & H).
  split; [reflexivity | exact H].
Defined.

(** *** Without a token *)

Lemma silent_without_token
    (l : list ((Request -> FetchOutcome) * Stimulus)) (m : Machine) :
  token m = None ->
  requests (reacts l m) = requests m /\
  opened (reacts l m) = opened m /\
  sent (reacts l m) = sent m.
Proof.
  revert m. induction l as [|[network st] rest IH]; intros m Ht; [now repeat split|].
  cbn [reacts].
  destruct (IH (react network st m)) as (Hr & Ho & Hs);
    [rewrite react_token; exact Ht|].
  rewrite Hr, Ho, Hs. split; [|split].
  - destruct (react_requests network st m) as (extra & -> & Hextra).
    destruct extra as [|r extra]; [apply app_nil_r|].
    specialize (Hextra r (or_introl eq_refl)). congruence.
  - now apply react_opened_without_token.
  - rewrite react_sent. rewrite Ht.
    destruct st as [ev|[event_data|i| |]|cu|captured]; apply app_nil_r.
Qed.

(** X3: while no token is stored the provider is silent on the network.
    Whatever browser events, actions, effects and cleanups it goes through,
    it issues no request, creates no socket and sends no message. *)
Theorem no_token_no_traffic
    (l : list ((Request -> FetchOutcome) * Stimulus)) (m : Machine) :
  token m = None ->
  requests (reacts l m) = requests m /\
  opened (reacts l m) = opened m /\
  sent (reacts l m) = sent m.
Proof. exact (silent_without_token l m). Qed.

Lemma no_token_no_traffic_witness :
  let m := mkMachine [sample 1 false] 1 (Some 0%nat) true None
             [("jwt", Some "bob")] [] [] [] [] [] in
  let m' := reacts [ (always accepted, Action (OpMarkAsRead 1));
                     (always accepted, Browser (SocketClose 0%nat));
                     (always accepted, Browser TimerElapsed);
                     (always accepted, Action OpFetchNotifications);
                     (always accepted, EffectRun (Some "bob")) ] m in
  requests m' = [] /\ opened m' = [("jwt", Some "bob")] /\ sent m' = [].
Proof.
  apply (no_token_no_traffic
           [ (always accepted, Action (OpMarkAsRead 1));
             (always accepted, Browser (SocketClose 0%nat));
             (always accepted, Browser TimerElapsed);
             (always accepted, Action OpFetchNotifications);
             (always accepted, EffectRun (Some "bob")) ]
           (mkMachine [sample 1 false] 1 (Some 0%nat) true None
              [("jwt", Some "bob")] [] [] [] [] [])).
  reflexivity.
Defined.

(** *** A failed pull of the list *)

(** X4: when the pull of the list fails (the request is rejected, the
    response is not ok, or its body does not decode), [fetchNotifications]
    writes one line to the console and returns normally; the local list and
    counter are what they were. *)
Theorem failed_listing_keeps_local_state
    (network : Request -> FetchOutcome) (tok : string) (m : Machine) :
  token m = Some tok ->
  listing_failed (network (mkRequest GET NotificationsIndex tok)) ->
  let r := run network fetchNotifications m in
  fst r = Returned tt /\ local (snd r) = local m /\
  requests (snd r) = requests m ++ [mkRequest GET NotificationsIndex tok] /\
  exists line, console (snd r) = console m ++ [line].
Proof.
  intros Ht Hf r. subst r.
  unfold fetchNotifications, fetch, response_json. run_step. rewrite Ht. run_step.
  destruct (network _) as [|response]; run_step.
  - repeat (split; [reflexivity|]). eexists. reflexivity.
  - cbn [listing_failed] in Hf. destruct (ok response) eqn:Hok; cbn [negb]; run_step.
    + destruct Hf as [Hf|Hf]; [discriminate|]. rewrite Hf. run_step.
      repeat (split; [reflexivity|]). eexists. reflexivity.
    + repeat (split; [reflexivity|]). eexists. reflexivity.
Qed.

Lemma failed_listing_keeps_local_state_witness :
  let m := disconnected [sample 1 false] 1 in
  local (snd (run (always accepted) fetchNotifications m)) = local m /\
  local (snd (run (always NetworkError) fetchNotifications m)) = local m.
Proof.
  split.
  - apply (failed_listing_keeps_local_state (always accepted) "jwt"
             (disconnected [sample 1 false] 1) eq_refl).
    right. reflexivity.
  - apply (failed_listing_keeps_local_state (always NetworkError) "jwt"
             (disconnected [sample 1 false] 1) eq_refl).
    exact I.
Defined.

(** *** Connection state *)

(** X5: [isConnected] and [socket] move together.  If [isConnected] is true
    exactly when a socket is held, this is still so after any sequence of
    browser events, actions, effects and cleanups. *)
Theorem connection_flags_agree
    (l : list ((Request -> FetchOutcome) * Stimulus)) (m : Machine) :
  flags_agree m -> flags_agree (reacts l m).
Proof.
  revert m. induction l as [|[network st] rest IH]; intros m H; [exact H|].
  cbn [reacts]. apply IH. now apply react_flags.
Qed.

Lemma connection_flags_agree_witness :
  flags_agree
    (reacts [ (always (listed [sample 4 false] 1), Browser (SocketOpen 0%nat));
              (always accepted, Browser (SocketError 0%nat));
              (always accepted, Browser (SocketClose 0%nat));
              (always accepted, EffectCleanup (Some 0%nat));
              (always accepted, Browser TimerElapsed);
              (always accepted, Browser (SocketOpen 1%nat)) ]
            (mkMachine [] 0 None false (Some "jwt") [("jwt", Some "bob")] [] [] [] [] [])).
Proof.
  apply connection_flags_agree. reflexivity.
Defined.

(** *** Requests *)

(** X6: every request the provider issues carries the stored token as its
    bearer: a request present after any sequence of browser events, actions,
    effects and cleanups was there before, or its bearer is the token in
    local storage. *)
Theorem requests_carry_stored_token
    (l : list ((Request -> FetchOutcome) * Stimulus)) (m : Machine) (r : Request) :
  In r (requests (reacts l m)) ->
  In r (requests m) \/ token m = Some (req_bearer r).
Proof.
  revert m. induction l as [|[network st] rest IH]; intros m Hin; [now left|].
  cbn [reacts] in Hin. apply IH in Hin. rewrite react_token in Hin.
  destruct Hin as [Hin|Hin]; [|now right].
  destruct (react_requests network st m) as (extra & E & Hextra).
  rewrite E in Hin. apply in_app_or in Hin as [Hin|Hin]; [now left|].
  right. now apply Hextra.
Qed.

Lemma requests_carry_stored_token_witness :
  let m' := reacts [ (always accepted, Action (OpMarkAsRead 1));
                     (always accepted, Action OpMarkAllAsRead);
                     (always accepted, Action OpFetchNotifications) ]
                   (disconnected [sample 1 false] 1) in
  In (mkRequest PUT NotificationsMarkAllRead "jwt") (requests m') /\
  token (disconnected [sample 1 false] 1) = Some "jwt".
Proof.
  assert (In (mkRequest PUT NotificationsMarkAllRead "jwt")
             (requests (reacts [ (always accepted, Action (OpMarkAsRead 1));
                                 (always accepted, Action OpMarkAllAsRead);
                                 (always accepted, Action OpFetchNotifications) ]
                               (disconnected [sample 1 false] 1)))) as Hin.
  { cbn. right. left. reflexivity. }
  split; [exact Hin|].
  destruct (requests_carry_stored_token _ _ _ Hin) as [[]|H]. exact H.
Defined.

(** *** Reconnecting *)

Lemma round_reconnects network m tok tok0 u :
  token m = Some tok ->
  timers m = [] ->
  nth_error (opened m) (latest m) = Some (tok0, Some u) ->
  opened (round network m) = opened m ++ [(tok, Some u)] /\
  timers (round network m) = [] /\
  token (round network m) = Some tok.
Proof.
  intros Ht Htm Hn. unfold round. cbn [deliver]. rewrite Hn.
  unfold onclose. run_step. fields. unfold fire_timer. fields. rewrite Htm.
  cbn [app]. unfold callback, connectWebSocket. run_step. fields. rewrite Ht.
  run_step. fields. now repeat split.
Qed.

Lemma latest_after_append (m m' : Machine) (x : string * option User) :
  opened m' = opened m ++ [x] -> nth_error (opened m') (latest m') = Some x.
Proof.
  intros E. unfold latest. rewrite E, length_app. cbn [List.length].
  replace (pred (List.length (opened m) + 1)) with (List.length (opened m) + 0)%nat by lia.
  rewrite nth_error_app2 by lia.
  replace (List.length (opened m) + 0 - List.length (opened m))%nat with 0%nat by lia.
  reflexivity.
Qed.

(** The wait a close of the latest socket schedules. *)
Lemma close_of_latest_waits network m tok0 u :
  timers m = [] ->
  nth_error (opened m) (latest m) = Some (tok0, Some u) ->
  timers (snd (deliver network (SocketClose (latest m)) m)) =
  [(Reconnect (Some u), 3000)].
Proof.
  intros Htm Hn. cbn [deliver]. rewrite Hn. unfold onclose. run_step. fields.
  rewrite Htm. reflexivity.
Qed.

Lemma rounds_state network n :
  forall m tok tok0 u,
    token m = Some tok ->
    timers m = [] ->
    nth_error (opened m) (latest m) = Some (tok0, Some u) ->
    opened (rounds network n m) = opened m ++ repeat (tok, Some u) n /\
    timers (rounds network n m) = [] /\
    exists tok1,
      nth_error (opened (rounds network n m)) (latest (rounds network n m)) =
      Some (tok1, Some u).
Proof.
  induction n as [|n IH]; intros m tok tok0 u Ht Htm Hn.
  - cbn. rewrite app_nil_r. split; [reflexivity|]. split; [exact Htm|].
    exists tok0. exact Hn.
  - cbn [rounds repeat].
    destruct (round_reconnects network m tok tok0 u Ht Htm Hn) as (Ho & Htm' & Ht').
    destruct (IH (round network m) tok tok u Ht' Htm' (latest_after_append _ _ _ Ho))
      as (Ho' & Htm'' & Hlast).
    split; [|split; [exact Htm'' | exact Hlast]].
    rewrite Ho', Ho, <- app_assoc. reflexivity.
Qed.

(** X7: the reconnect loop neither backs off nor gives up.  With a token
    stored, no timeout pending and the latest socket created for a user,
    [n] rounds of "the latest socket closes, the timeout elapses" create
    [n] further sockets, each for the same user with the stored token, and
    leave no timeout pending; and the close that starts the next round, as
    the close of every round before it, schedules its reconnect 3000 ms
    later, however many rounds have gone by. *)
Theorem reconnect_loop
    (network : Request -> FetchOutcome) (n : nat) (m : Machine)
    (tok tok0 : string) (u : User) :
  token m = Some tok ->
  timers m = [] ->
  nth_error (opened m) (latest m) = Some (tok0, Some u) ->
  opened (rounds network n m) = opened m ++ repeat (tok, Some u) n /\
  timers (rounds network n m) = [] /\
  forall k, (k <= n)%nat ->
    timers (snd (deliver network (SocketClose (latest (rounds network k m)))
                   (rounds network k m))) =
    [(Reconnect (Some u), 3000)].
Proof.
  intros Ht Htm Hn.
  destruct (rounds_state network n m tok tok0 u Ht Htm Hn) as (Ho & Htm' & _).
  split; [exact Ho|]. split; [exact Htm'|].
  intros k _.
  destruct (rounds_state network k m tok tok0 u Ht Htm Hn) as (_ & Htk & tok1 & Hlast).
  exact (close_of_latest_waits network _ tok1 u Htk Hlast).
Qed.

Lemma reconnect_loop_witness :
  opened (rounds (always accepted) 3 (connected [] 0)) =
    [("jwt", Some "bob"); ("jwt", Some "bob"); ("jwt", Some "bob"); ("jwt", Some "bob")] /\
  timers (snd (deliver (always accepted)
                 (SocketClose (latest (rounds (always accepted) 3 (connected [] 0))))
                 (rounds (always accepted) 3 (connected [] 0)))) =
    [(Reconnect (Some "bob"), 3000)].
Proof.
  destruct (reconnect_loop (always accepted) 3 (connected [] 0) "jwt" "jwt" "bob"
              eq_refl eq_refl eq_refl) as (Ho & _ & Hwait).
  split; [exact Ho|]. apply (Hwait 3%nat). lia.
Defined.

(** X8: an error on a socket makes the provider call [close] on that socket
    and touches nothing else; when the browser then delivers the close, the
    provider is disconnected and one reconnect is scheduled 3000 ms later,
    for the user the socket was created for. *)
Theorem error_then_close_schedules_reconnect
    (network : Request -> FetchOutcome) (s : Socket) (tok0 : string)
    (cu : option User) (m : Machine) :
  nth_error (opened m) s = Some (tok0, cu) ->
  let m1 := react network (Browser (SocketError s)) m in
  let m2 := react network (Browser (SocketClose s)) m1 in
  closed m1 = closed m ++ [s] /\
  local m1 = local m /\ socket m1 = socket m /\ isConnected m1 = isConnected m /\
  timers m1 = timers m /\
  socket m2 = None /\ isConnected m2 = false /\
  timers m2 = timers m ++ [(Reconnect cu, 3000)] /\
  local m2 = local m.
Proof.
  intros Hn m1 m2. subst m2 m1. cbn [react deliver]. rewrite Hn.
  unfold onerror. run_step. fields. rewrite Hn.
  unfold onclose. run_step. fields. now repeat split.
Qed.

Lemma error_then_close_schedules_reconnect_witness :
  let m1 := react (always accepted) (Browser (SocketError 0%nat)) (connected [] 0) in
  let m2 := react (always accepted) (Browser (SocketClose 0%nat)) m1 in
  closed m1 = [0%nat] /\ isConnected m1 = true /\
  isConnected m2 = false /\ timers m2 = [(Reconnect (Some "bob"), 3000)].
Proof.
  pose proof (error_then_close_schedules_reconnect (always accepted) 0%nat "jwt"
                (Some "bob") (connected [] 0) eq_refl)
    as (H1 & _ & _ & H2 & _ & _ & H3 & H4 & _).
  repeat split; assumption.
Defined.

(** X9: the effect guards on the [socket] state, which is only set when a
    socket opens.  While a socket is held the effect does nothing.  With a
    user, a token and no socket held it creates one socket; if it runs a
    second time before that socket has opened it creates a second one, but
    once the socket has opened a further run creates none. *)
Theorem effect_connects_until_open
    (network : Request -> FetchOutcome) (tok : string) (u : User) (m : Machine) :
  token m = Some tok ->
  socket m = None ->
  let run_effect := react network (EffectRun (Some u)) in
  let s := List.length (opened m) in
  opened (run_effect m) = opened m ++ [(tok, Some u)] /\
  opened (run_effect (run_effect m)) = opened m ++ [(tok, Some u); (tok, Some u)] /\
  opened (run_effect (react network (Browser (SocketOpen s)) (run_effect m))) =
    opened m ++ [(tok, Some u)] /\
  (forall m0 cu s0, socket m0 = Some s0 -> react network (EffectRun cu) m0 = m0).
Proof.
  intros Ht Hs run_effect s. subst run_effect s.
  assert (forall m0, token m0 = Some tok -> socket m0 = None ->
            react network (EffectRun (Some u)) m0 =
            set_opened m0 (opened m0 ++ [(tok, Some u)])) as Once.
  { intros m0 Ht0 Hs0. cbn [react]. rewrite Hs0. cbn [effect].
    unfold connectWebSocket. run_step. rewrite Ht0. reflexivity. }
  split; [|split; [|split]].
  - rewrite (Once m Ht Hs). reflexivity.
  - rewrite (Once m Ht Hs). rewrite Once by assumption. fields.
    rewrite <- app_assoc. reflexivity.
  - rewrite (Once m Ht Hs).
    assert (nth_error (opened m ++ [(tok, Some u)]) (List.length (opened m)) =
            Some (tok, Some u)) as Hn.
    { rewrite nth_error_app2 by lia. rewrite Nat.sub_diag. reflexivity. }
    cbn [react deliver]. fields. rewrite Hn.
    assert (forall m0 s0, socket (snd (run network (onopen s0) m0)) = Some s0 /\
                          opened (snd (run network (onopen s0) m0)) = opened m0) as Open.
    { intros m0 s0. explore; now split. }
    destruct (Open (set_opened m (opened m ++ [(tok, Some u)])) (List.length (opened m)))
      as [Hsock Hop].
    rewrite Hsock. cbn [effect run snd]. rewrite Hop. reflexivity.
  - intros m0 cu s0 Hs0. cbn [react]. rewrite Hs0. destruct cu; reflexivity.
Qed.

Lemma effect_connects_until_open_witness :
  let m := disconnected [] 0 in
  let run_effect := react (always accepted) (EffectRun (Some "bob")) in
  opened (run_effect m) = [("jwt", Some "bob")] /\
  opened (run_effect (run_effect m)) = [("jwt", Some "bob"); ("jwt", Some "bob")].
Proof.
  pose proof (effect_connects_until_open (always accepted) "jwt" "bob"
                (disconnected [] 0) eq_refl eq_refl) as (H1 & H2 & _).
  split; [exact H1 | exact H2].
Defined.

(** X10: tearing down a live connection schedules a reconnect.  The cleanup
    of the effect, run with a socket it holds, calls [close] on it and
    marks the provider disconnected; the close event that follows schedules
    the reconnect 3000 ms later; and when that timeout is the oldest one
    and a token is still stored, its elapsing creates a new socket for the
    user the closed socket was created for. *)
Theorem cleanup_then_close_reconnects
    (network : Request -> FetchOutcome) (s : Socket) (tok tok0 : string)
    (u : User) (m : Machine) :
  nth_error (opened m) s = Some (tok0, Some u) ->
  token m = Some tok ->
  timers m = [] ->
  let m1 := react network (EffectCleanup (Some s)) m in
  let m2 := react network (Browser (SocketClose s)) m1 in
  let m3 := react network (Browser TimerElapsed) m2 in
  closed m1 = closed m ++ [s] /\ socket m1 = None /\ isConnected m1 = false /\
  timers m1 = [] /\
  timers m2 = [(Reconnect (Some u), 3000)] /\
  opened m3 = opened m ++ [(tok, Some u)] /\ timers m3 = [].
Proof.
  intros Hn Ht Htm m1 m2 m3. subst m3 m2 m1.
  cbn [react cleanup]. run_step. fields. cbn [deliver]. fields. rewrite Hn.
  unfold onclose. run_step. fields. unfold fire_timer. fields. rewrite Htm.
  cbn [app]. unfold callback, connectWebSocket. run_step. fields. rewrite Ht.
  run_step. fields. now repeat split.
Qed.

Lemma cleanup_then_close_reconnects_witness :
  let m1 := react (always accepted) (EffectCleanup (Some 0%nat)) (connected [] 0) in
  let m2 := react (always accepted) (Browser (SocketClose 0%nat)) m1 in
  let m3 := react (always accepted) (Browser TimerElapsed) m2 in
  timers m2 = [(Reconnect (Some "bob"), 3000)] /\
  opened m3 = [("jwt", Some "bob"); ("jwt", Some "bob")].
Proof.
  pose proof (cleanup_then_close_reconnects (always accepted) 0%nat "jwt" "jwt" "bob"
                (connected [] 0) eq_refl eq_refl eq_refl)
    as (_ & _ & _ & _ & H2 & H3 & _).
  split; [exact H2 | exact H3].
Defined.

(** *** Outbound messages *)

(** X11: the provider sends a message in one situation only: a mark-read
    action while a token is stored, a socket is held and [isConnected] is
    true; the message is [mark_read] for the identifier, on the held socket.
    Nothing else it goes through sends anything. *)
Theorem sends_only_live_mark_read
    (network : Request -> FetchOutcome) (st : Stimulus) (m : Machine) :
  sent (react network st m) = sent m \/
  exists s i,
    st = Action (OpMarkAsRead i) /\
    socket m = Some s /\ isConnected m = true /\ token m <> None /\
    sent (react network st m) = sent m ++ [(s, mkClientMessage "mark_read" i)].
Proof.
  rewrite react_sent.
  destruct st as [ev|[event_data|i| |]|cu|captured]; try (left; apply app_nil_r).
  destruct (token m) as [tok|] eqn:Ht; [|left; apply app_nil_r].
  destruct (socket m) as [s|] eqn:Hs; [|left; apply app_nil_r].
  destruct (isConnected m) eqn:Hc; [|left; apply app_nil_r].
  right. exists s, i. repeat split; congruence.
Qed.

(** *** Read flags *)

Lemma with_is_read_same (n : Notification) :
  with_is_read n (is_read n) = n.
Proof. destruct n; reflexivity. Qed.

Lemma read_entry_survives_patch (i : Z) (n : Notification) (l : list Notification) :
  In n l -> is_read n = true -> In n (map (patch i true) l).
Proof.
  intros Hin Hr. apply in_map_iff. exists n. split; [|exact Hin].
  unfold patch. destruct (id n =? i); [|reflexivity].
  rewrite <- Hr. apply with_is_read_same.
Qed.

(** X12: no operation other than a [notification_updated] message with read
    flag false or a pull takes anything away from a read entry: an entry of
    the local list that is read is still in the list, unchanged, after the
    operation. *)
Theorem read_entries_stay_read
    (network : Request -> FetchOutcome) (o : Op) (m : Machine) (n : Notification) :
  may_revert o = false ->
  In n (notifications m) ->
  is_read n = true ->
  In n (notifications (step network o m)).
Proof.
  intros Hsafe Hin Hr.
  destruct o as [event_data|i| |]; cbn [may_revert] in Hsafe.
  - pose proof (local_message network event_data m) as E.
    destruct event_data as [raw|data].
    + apply local_eq in E as [-> _]. exact Hin.
    + destruct (msg_type data =? "notification")%string.
      { apply local_eq in E as [-> _]. now right. }
      destruct (msg_type data =? "notification_updated")%string;
        apply local_eq in E as [-> _]; [|exact Hin].
      cbn [andb] in Hsafe. apply negb_false_iff in Hsafe. rewrite Hsafe.
      now apply read_entry_survives_patch.
  - destruct (local_markAsRead network i m) as [E|E];
      apply local_eq in E as [-> _]; [exact Hin|].
    now apply read_entry_survives_patch.
  - destruct (local_markAllAsRead network m) as [E|E];
      apply local_eq in E as [-> _]; [exact Hin|].
    apply in_map_iff. exists n. split; [|exact Hin].
    rewrite <- Hr. apply with_is_read_same.
  - discriminate Hsafe.
Qed.

Lemma read_entries_stay_read_witness :
  In (sample 2 true)
     (notifications (step (always accepted) (OpMarkAsRead 2)
                          (disconnected [sample 1 false; sample 2 true] 1))).
Proof.
  apply read_entries_stay_read.
  - reflexivity.
  - right. left. reflexivity.
  - reflexivity.
Defined.

(** *** Relative times in the menu *)

(** X14: [formatNotificationTime] shows whole units, never zero of them.
    With [d] the milliseconds from the notification to now: under one minute
    (a notification from the future included) the text is the fixed "just
    now" string; otherwise it is a count followed by the unit suffix, the
    count being the whole minutes (1 to 59), the whole hours (1 to 23) or the
    whole days (1 or more) contained in [d]. *)
Theorem formatNotificationTime_ranges (now date : Z) :
  let d := now - date in
  let text := formatNotificationTime now date in
  (d < 60000 /\ text = "刚刚") \/
  (exists n, 1 <= n <= 59 /\ 60000 * n <= d < 60000 * (n + 1) /\
             text = (decimal n ++ "分钟前")%string) \/
  (exists n, 1 <= n <= 23 /\ 3600000 * n <= d < 3600000 * (n + 1) /\
             text = (decimal n ++ "小时前")%string) \/
  (exists n, 1 <= n /\ 86400000 * n <= d < 86400000 * (n + 1) /\
             text = (decimal n ++ "天前")%string).
Proof.
  cbv zeta. unfold formatNotificationTime. change (1000 * 60) with 60000.
  set (d := now - date). set (q := d / 60000).
  assert (60000 * q <= d < 60000 * (q + 1)) as Hq.
  { subst q. pose proof (Z.div_mod d 60000 ltac:(lia)).
    pose proof (Z.mod_pos_bound d 60000 ltac:(lia)). lia. }
  destruct (Z.ltb_spec q 1) as [H1|H1]; [left; split; [lia | reflexivity]|].
  destruct (Z.ltb_spec q 60) as [H60|H60].
  { right. left. exists q. repeat split; lia || reflexivity. }
  destruct (Z.ltb_spec q 1440) as [H1440|H1440].
  - right. right. left. exists (q / 60).
    pose proof (Z.div_mod q 60 ltac:(lia)).
    pose proof (Z.mod_pos_bound q 60 ltac:(lia)).
    repeat split; lia || reflexivity.
  - right. right. right. exists (q / 1440).
    pose proof (Z.div_mod q 1440 ltac:(lia)).
    pose proof (Z.mod_pos_bound q 1440 ltac:(lia)).
    repeat split; lia || reflexivity.
Qed.

(** ** Authentication and the provider *)

(** X16: the token of a successful login is the one the provider uses.  When
    the login response carries a non-empty access token, the token is
    stored and the user set; the next pull of the list carries that token as
    bearer, and, no socket being held, the effect for the new user creates a
    socket with that token. *)
Theorem login_token_reaches_provider
    (network : Request -> FetchOutcome) (data : LoginData)
    (a : AuthContext.State) (m : Machine) :
  access_token data <> EmptyString ->
  socket m = None ->
  let result := AuthContext.login (Fulfilled data) a m in
  let a' := snd (fst result) in
  let m' := snd result in
  fst (fst result) = Returned (user data) /\
  a' = AuthContext.mkState (Some (user data)) false None /\
  token m' = Some (access_token data) /\
  requests (step network OpFetchNotifications m') =
    requests m ++ [mkRequest GET NotificationsIndex (access_token data)] /\
  opened (react network (EffectRun (AuthContext.currentUser a')) m') =
    opened m ++ [(access_token data, Some (user data))].
Proof.
  intros Hne Hs result a' m'. subst a' m' result.
  unfold AuthContext.login. cbn [loginUser fst snd AuthContext.currentUser].
  assert (stored (access_token data) = Some (access_token data)) as Est.
  { unfold stored.
    destruct (String.eqb_spec (access_token data) EmptyString); [contradiction|reflexivity]. }
  rewrite Est.
  set (m' := set_token m (Some (access_token data))).
  assert (token m' = Some (access_token data)) as Ht by reflexivity.
  split; [reflexivity|]. split; [reflexivity|]. split; [exact Ht|]. split.
  - unfold step, program.
    destruct (fetchNotifications_frame network _ m' Ht) as (Hr & _). exact Hr.
  - cbn [react]. replace (socket m') with (@None Socket) by (symmetry; exact Hs).
    cbn [effect]. unfold connectWebSocket. run_step. rewrite Ht. reflexivity.
Qed.

Lemma login_token_reaches_provider_witness :
  let m := mkMachine [] 0 None false None [] [] [] [] [] [] in
  let result := AuthContext.login (Fulfilled (mkLoginData "jwt" "bob"))
                  (AuthContext.mkState None true None) m in
  token (snd result) = Some "jwt" /\
  requests (step (always (listed [] 0)) OpFetchNotifications (snd result)) =
    [mkRequest GET NotificationsIndex "jwt"].
Proof.
  pose proof (login_token_reaches_provider (always (listed [] 0))
                (mkLoginData "jwt" "bob") (AuthContext.mkState None true None)
                (mkMachine [] 0 None false None [] [] [] [] [] []))
    as H.
  destruct H as (_ & _ & Ht & Hr & _); [discriminate | reflexivity |].
  split; [exact Ht | exact Hr].
Defined.

(** X17: a failed session check ends the session without failing itself.
    [checkAuthStatus] returns normally, clears the user, records the message
    of [handleApiError], ends loading and removes the stored token; from then
    on, whatever the notification provider goes through, it issues no
    request, creates no socket and sends no message. *)
Theorem failed_check_ends_session
    (e : AxiosError) (a : AuthContext.State) (m : Machine)
    (l : list ((Request -> FetchOutcome) * Stimulus)) :
  let result := AuthContext.checkAuthStatus (Failed e) a m in
  let m' := snd result in
  fst (fst result) = Returned tt /\
  snd (fst result) = AuthContext.mkState None false (Some (handleApiError e)) /\
  token m' = None /\
  requests (reacts l m') = requests m /\
  opened (reacts l m') = opened m /\
  sent (reacts l m') = sent m.
Proof.
  cbv zeta. unfold AuthContext.checkAuthStatus. cbn [getCurrentUser fst snd].
  repeat (split; [reflexivity|]).
  match goal with
  | |- context [reacts l ?m'] =>
      destruct (silent_without_token l m' eq_refl) as (Hr & Ho & Hs)
  end.
  split; [exact Hr|]. split; [exact Ho | exact Hs].
Qed.

(** X18: after [logout] the user is cleared and the token removed, and the
    notification provider is silent: through any sequence of browser events
    (a pending reconnect timeout among them), actions, effects and cleanups
    it issues no request, creates no socket and sends no message. *)
Theorem logout_silences_provider
    (a : AuthContext.State) (m : Machine)
    (l : list ((Request -> FetchOutcome) * Stimulus)) :
  let a' := fst (AuthContext.logout a m) in
  let m' := snd (AuthContext.logout a m) in
  AuthContext.currentUser a' = None /\
  token m' = None /\
  requests (reacts l m') = requests m /\
  opened (reacts l m') = opened m /\
  sent (reacts l m') = sent m.
Proof.
  cbv zeta. unfold AuthContext.logout. cbn [fst snd].
  repeat (split; [reflexivity|]).
  match goal with
  | |- context [reacts l ?m'] =>
      destruct (silent_without_token l m' eq_refl) as (Hr & Ho & Hs)
  end.
  split; [exact Hr|]. split; [exact Ho | exact Hs].
Qed.

(** ** Completion and counting *)

(** X19: no operation on the local state lets an exception escape: the
    message handler and the three exported actions return normally on every
    input, in every state and against every network. *)
Theorem operations_never_reject
    (network : Request -> FetchOutcome) (o : Op) (m : Machine) :
  fst (run network (program o m) m) = Returned tt.
Proof.
  destruct o as [event_data|i| |]; unfold program; explore; reflexivity.
Qed.

(** X20: read-flag updates count down one by one and stop at zero.  From a
    nonnegative counter [c], handling [notification_updated] messages with
    read flag true for the identifiers [ids], one after the other, leaves
    the counter at max(0, c - |ids|), whether or not the identifiers are in
    the local list or repeat. *)
Theorem updates_count_down_to_zero
    (network : Request -> FetchOutcome) (ids : list Z) (m : Machine) :
  0 <= unreadCount m ->
  unreadCount
    (steps (map (fun i => (network, OpMessage (notification_updated i true))) ids) m)
  = Z.max 0 (unreadCount m - Z.of_nat (List.length ids)).
Proof.
  revert m. induction ids as [|i ids IH]; intros m Hc.
  - cbn. lia.
  - cbn [map steps].
    pose proof (local_message network (notification_updated i true) m) as E.
    remember (step network (OpMessage (notification_updated i true)) m) as m1 eqn:Em1.
    cbn in E. apply local_eq in E as [_ Ec].
    rewrite IH by (rewrite Ec; lia). rewrite Ec. cbn [List.length]. lia.
Qed.

Lemma updates_count_down_to_zero_witness :
  unreadCount
    (steps (map (fun i => (always accepted, OpMessage (notification_updated i true)))
                [5; 5; 9])
           (connected [sample 5 false] 2))
  = 0.
Proof.
  apply (updates_count_down_to_zero (always accepted) [5; 5; 9]
           (connected [sample 5 false] 2)).
  cbn. lia.
Defined.
